(** * Algorand first contracts: counter application and donation escrow

    A shallow embedding of the two PyTeal programs of the repository
    ([approval_program] of [counter_contract.py], [donation_escrow] of
    [donation_smart_sig.py]) and of the client-side helpers around them
    ([wait_for_confirmation], [format_state], [get_app_global_state]),
    with the properties the specification states about them. *)

From Stdlib Require Import ZArith List String Ascii Bool Lia.
From stdpp Require Import gmap strings list fin_maps pretty.
From Equations Require Import Equations.
Import ListNotations.

Local Open Scope string_scope.
Local Open Scope Z_scope.

(** ** The TEAL fragment the programs are written in

    PyTeal builds an expression tree that [compileTeal] renders to TEAL.
    Each PyTeal constructor used by the repository is embedded as a
    function from the evaluation context (the transaction being
    evaluated and its group) and the machine state (application global
    state, scratch space) to an outcome. *)
Module Teal.

(** A TEAL stack value: an unsigned 64-bit integer or a byte string. *)
Inductive StackValue : Type :=
| VUint (n : Z)
| VBytes (b : string).

Definition uint64_max : Z := 2 ^ 64 - 1.

(** [OnComplete], with the numbering of the protocol. *)
Inductive OnComplete : Type :=
| NoOp | OptIn | CloseOut | ClearState | UpdateApplication | DeleteApplication.

Definition OnComplete_value (oc : OnComplete) : Z :=
  match oc with
  | NoOp => 0 | OptIn => 1 | CloseOut => 2
  | ClearState => 3 | UpdateApplication => 4 | DeleteApplication => 5
  end.

(** [TxnType], with the numbering of the protocol. *)
Inductive TxnType : Type :=
| Unknown | Payment | KeyRegistration | AssetConfig
| AssetTransfer | AssetFreeze | ApplicationCall.

Definition TxnType_value (t : TxnType) : Z :=
  match t with
  | Unknown => 0 | Payment => 1 | KeyRegistration => 2 | AssetConfig => 3
  | AssetTransfer => 4 | AssetFreeze => 5 | ApplicationCall => 6
  end.

(** The fields of the current transaction and of its group that the two
    programs read. Addresses are kept in their textual form. *)
Record Context : Type := {
  type_enum : TxnType;
  receiver : string;
  application_id : Z;
  on_completion : OnComplete;
  application_args : list string;
  group_size : Z
}.

(** Application global state and scratch space. *)
Record Machine : Type := {
  globals : gmap string StackValue;
  scratch : gmap nat StackValue
}.

(** Evaluation either goes on with a value, stops the whole program
    through [Return], or panics (the AVM's [err]). *)
Inductive outcome (A : Type) : Type :=
| Value (a : A) (m : Machine)
| Returned (code : Z) (m : Machine)
| Panic.
Arguments Value {A} a m.
Arguments Returned {A} code m.
Arguments Panic {A}.

Definition Expr (A : Type) : Type := Context -> Machine -> outcome A.

Definition ret {A} (a : A) : Expr A := fun _ m => Value a m.

Definition ebind {A B} (e : Expr A) (k : A -> Expr B) : Expr B :=
  fun ctx m =>
    match e ctx m with
    | Value a m' => k a ctx m'
    | Returned c m' => Returned c m'
    | Panic => Panic
    end.

Definition panic {A} : Expr A := fun _ _ => Panic.

Declare Scope teal_scope.
Delimit Scope teal_scope with teal.
Notation "'let!' x ':=' e 'in' k" := (ebind e (fun x => k))
  (at level 10, x name, e at level 100, k at level 200) : teal_scope.
Local Open Scope teal_scope.

Definition as_uint (v : StackValue) : Expr Z :=
  match v with VUint n => ret n | VBytes _ => panic end.

Definition as_bytes (v : StackValue) : Expr string :=
  match v with VBytes b => ret b | VUint _ => panic end.

Definition of_bool (b : bool) : StackValue := VUint (if b then 1 else 0).

(** *** Leaves *)
Definition Int (n : Z) : Expr StackValue := ret (VUint n).
Definition Bytes (b : string) : Expr StackValue := ret (VBytes b).
Definition Addr (a : string) : Expr StackValue := ret (VBytes a).

Definition Txn_application_id : Expr StackValue :=
  fun ctx m => Value (VUint (application_id ctx)) m.
Definition Txn_on_completion : Expr StackValue :=
  fun ctx m => Value (VUint (OnComplete_value (on_completion ctx))) m.
Definition Txn_type_enum : Expr StackValue :=
  fun ctx m => Value (VUint (TxnType_value (type_enum ctx))) m.
Definition Txn_receiver : Expr StackValue :=
  fun ctx m => Value (VBytes (receiver ctx)) m.
Definition Global_group_size : Expr StackValue :=
  fun ctx m => Value (VUint (group_size ctx)) m.

(** [Txn.application_args[i]]: [txna ApplicationArgs i] panics when the
    transaction has no such argument. *)
Definition Txn_application_args (i : nat) : Expr StackValue :=
  fun ctx m =>
    match nth_error (application_args ctx) i with
    | Some a => Value (VBytes a) m
    | None => Panic
    end.

(** *** Operators *)

(** [==] compares two values of one type. *)
Definition Eq (a b : Expr StackValue) : Expr StackValue :=
  let! x := a in let! y := b in
  match x, y with
  | VUint n, VUint k => ret (of_bool (n =? k))
  | VBytes s, VBytes t => ret (of_bool (String.eqb s t))
  | _, _ => panic
  end.

Definition Gt (a b : Expr StackValue) : Expr StackValue :=
  let! x := a in let! y := b in let! n := as_uint x in let! k := as_uint y in
  ret (of_bool (k <? n)).

(** [+] panics on overflow, [-] on underflow. *)
Definition Add (a b : Expr StackValue) : Expr StackValue :=
  let! x := a in let! y := b in let! n := as_uint x in let! k := as_uint y in
  if n + k <=? uint64_max then ret (VUint (n + k)) else panic.

Definition Minus (a b : Expr StackValue) : Expr StackValue :=
  let! x := a in let! y := b in let! n := as_uint x in let! k := as_uint y in
  if k <=? n then ret (VUint (n - k)) else panic.

(** [&&]: both operands are evaluated. *)
Definition And2 (a b : Expr StackValue) : Expr StackValue :=
  let! x := a in let! y := b in let! n := as_uint x in let! k := as_uint y in
  ret (of_bool (negb (n =? 0) && negb (k =? 0))).

(** [And(e1, e2, ...)] is rendered as [e1 e2 && e3 && ...]. *)
Definition And (a : Expr StackValue) (rest : list (Expr StackValue)) : Expr StackValue :=
  fold_left And2 rest a.

(** *** State *)

(** [app_global_get] yields 0 for a key that is not set. *)
Definition App_globalGet (key : Expr StackValue) : Expr StackValue :=
  let! kv := key in let! k := as_bytes kv in
  fun _ m => Value (default (VUint 0) (globals m !! k)) m.

Definition App_globalPut (key value : Expr StackValue) : Expr unit :=
  let! kv := key in let! k := as_bytes kv in let! v := value in
  fun _ m => Value tt {| globals := <[k := v]> (globals m); scratch := scratch m |}.

(** [ScratchVar.store] and [ScratchVar.load] on a slot; an unwritten slot
    reads as 0. *)
Definition ScratchVar_store (slot : nat) (value : Expr StackValue) : Expr unit :=
  let! v := value in
  fun _ m => Value tt {| globals := globals m; scratch := <[slot := v]> (scratch m) |}.

Definition ScratchVar_load (slot : nat) : Expr StackValue :=
  fun _ m => Value (default (VUint 0) (scratch m !! slot)) m.

(** *** Control *)

Definition Return (e : Expr StackValue) : Expr unit :=
  let! v := e in let! n := as_uint v in fun _ m => Returned n m.

Fixpoint Seq (es : list (Expr unit)) : Expr unit :=
  match es with
  | [] => ret tt
  | e :: rest => ebind e (fun _ => Seq rest)
  end.

(** [If(cond, then)] without an else branch. *)
Definition If (c : Expr StackValue) (t : Expr unit) : Expr unit :=
  let! v := c in let! n := as_uint v in if n =? 0 then ret tt else t.

(** [Cond([c1, b1], [c2, b2], ...)]: the first clause whose condition is
    non-zero runs; when none is, the program fails with [err]. *)
Fixpoint Cond (clauses : list (Expr StackValue * Expr unit)) : Expr unit :=
  match clauses with
  | [] => panic
  | (c, body) :: rest =>
      let! v := c in let! n := as_uint v in if n =? 0 then Cond rest else body
  end.

(** *** The ledger's use of a program *)

Definition fresh (g : gmap string StackValue) : Machine :=
  {| globals := g; scratch := ∅ |}.

(** The ledger's rule for an approval program: the call is approved when
    the program returns a non-zero value, and the writes of a rejected call
    are discarded. The ledger runs the approval program for every
    on-completion action but ClearState, for which it runs the clear
    program instead; what [apply_call] says of the verdict on a ClearState
    call is therefore not the ledger's, and the statements about verdicts
    below leave ClearState out. *)
Definition apply_call (program : Expr unit) (ctx : Context)
    (g : gmap string StackValue) : bool * gmap string StackValue :=
  match program ctx (fresh g) with
  | Returned code m => if code =? 0 then (false, g) else (true, globals m)
  | Value _ _ => (false, g)
  | Panic => (false, g)
  end.

(** A smart signature approves when it leaves a non-zero integer. *)
Definition lsig_approves (program : Expr StackValue) (ctx : Context) : bool :=
  match program ctx (fresh ∅) with
  | Value (VUint n) _ => negb (n =? 0)
  | _ => false
  end.

End Teal.

(** ** counter_contract.py: the approval program *)
Module Counter.
Import Teal.
Local Open Scope teal_scope.

Definition on_creation : Expr unit :=
  Seq [ App_globalPut (Bytes "Count") (Int 0);
        Return (Int 1) ].

Definition scratchCount : nat := 0%nat.

Definition add : Expr unit :=
  Seq [ ScratchVar_store scratchCount (App_globalGet (Bytes "Count"));
        App_globalPut (Bytes "Count") (Add (ScratchVar_load scratchCount) (Int 1));
        Return (Int 1) ].

Definition deduct : Expr unit :=
  Seq [ ScratchVar_store scratchCount (App_globalGet (Bytes "Count"));
        If (Gt (ScratchVar_load scratchCount) (Int 0))
           (App_globalPut (Bytes "Count") (Minus (ScratchVar_load scratchCount) (Int 1)));
        Return (Int 1) ].

Definition handle_noop : Expr unit :=
  Cond [ (And (Eq Global_group_size (Int 1))
              [Eq (Txn_application_args 0) (Bytes "Add")], add);
         (And (Eq Global_group_size (Int 1))
              [Eq (Txn_application_args 0) (Bytes "Deduct")], deduct) ].

Definition approval_program : Expr unit :=
  Cond [ (Eq Txn_application_id (Int 0), on_creation);
         (Eq Txn_on_completion (Int (OnComplete_value OptIn)), Return (Int 0));
         (Eq Txn_on_completion (Int (OnComplete_value CloseOut)), Return (Int 0));
         (Eq Txn_on_completion (Int (OnComplete_value UpdateApplication)), Return (Int 0));
         (Eq Txn_on_completion (Int (OnComplete_value DeleteApplication)), Return (Int 0));
         (Eq Txn_on_completion (Int (OnComplete_value NoOp)), handle_noop) ].

Definition clear_state_program : Expr unit := Return (Int 1).

(** *** Transactions sent by the scripts and the tests *)

(** [ApplicationCreateTxn]: an application call with application id 0. *)
Definition create_txn : Context :=
  {| type_enum := ApplicationCall; receiver := ""; application_id := 0;
     on_completion := NoOp; application_args := []; group_size := 1 |}.

(** [ApplicationCallTxn(index=app_id, on_complete=NoOpOC, app_args=args)]
    in a group of [gsize] transactions. *)
Definition noop_call (app_id : Z) (args : list string) (gsize : Z) : Context :=
  {| type_enum := ApplicationCall; receiver := ""; application_id := app_id;
     on_completion := NoOp; application_args := args; group_size := gsize |}.

Inductive Op : Type := OpAdd | OpDeduct.

Definition op_arg (op : Op) : string :=
  match op with OpAdd => "Add" | OpDeduct => "Deduct" end.

(** One solo (group of one) call of the operation. *)
Definition op_txn (app_id : Z) (op : Op) : Context :=
  noop_call app_id [op_arg op] 1.

Definition call (ctx : Context) (g : gmap string StackValue) : gmap string StackValue :=
  snd (apply_call approval_program ctx g).

Definition run_ops (app_id : Z) (ops : list Op) (g : gmap string StackValue)
    : gmap string StackValue :=
  fold_left (fun g op => call (op_txn app_id op) g) ops g.

(** The global state right after creation. *)
Definition created : gmap string StackValue := call create_txn ∅.

Definition count_of (g : gmap string StackValue) : option StackValue := g !! "Count".

(** An [ApplicationCreateTxn] submitted together with another
    transaction, in a group of two. *)
Definition grouped_create_txn : Context :=
  {| type_enum := ApplicationCall; receiver := ""; application_id := 0;
     on_completion := NoOp; application_args := []; group_size := 2 |}.

(** A call of an existing application (non-zero id) that is alone in its
    group, completes with NoOp and names the operation in its first
    argument. *)
Definition is_solo_call (name : string) (ctx : Context) : Prop :=
  application_id ctx <> 0 /\ on_completion ctx = NoOp /\
  group_size ctx = 1 /\ hd_error (application_args ctx) = Some name.

(** The counter holds an unsigned 64-bit integer. *)
Definition counter_ok (g : gmap string StackValue) : Prop :=
  exists v, count_of g = Some (VUint v) /\ 0 <= v <= uint64_max.

(** *** The state machine of the specification

    "Add -> value+1; Deduct -> max(value-1, 0)", from 0 at creation. *)
Definition step_spec (v : Z) (op : Op) : Z :=
  match op with
  | OpAdd => v + 1
  | OpDeduct => Z.max (v - 1) 0
  end.

Definition counter_spec (ops : list Op) : Z := fold_left step_spec ops 0.

(** Number of Adds minus number of Deducts. *)
Fixpoint net (ops : list Op) : Z :=
  match ops with
  | [] => 0
  | OpAdd :: rest => 1 + net rest
  | OpDeduct :: rest => net rest - 1
  end.

(** The largest [net] over the suffixes of the sequence, the empty one
    included. *)
Fixpoint max_suffix_net (ops : list Op) : Z :=
  match ops with
  | [] => 0
  | _ :: rest => Z.max (net ops) (max_suffix_net rest)
  end.

End Counter.

(** ** donation_smart_sig.py: the escrow predicate *)
Module Donation.
Import Teal.

Definition receiver_public_key : string :=
  "UFAGBH5BHBAKDSSSBKP6LAZ7VFIA3ETNK7LVNEH6KXRRNTYE6WYHTEMEGU".

(** [Addr(benefactor)] is the constant the receiver is compared with;
    both sides are kept in the textual form of the address. *)
Definition donation_escrow (benefactor : string) : Expr StackValue :=
  And (Eq Txn_type_enum (Int (TxnType_value Payment)))
      [ Eq Txn_receiver (Addr benefactor);
        Eq Global_group_size (Int 1) ].

(** [PaymentTxn(escrow_address, params, rcv, amt)] in a group of [gsize]. *)
Definition payment_txn (rcv : string) (gsize : Z) : Context :=
  {| type_enum := Payment; receiver := rcv; application_id := 0;
     on_completion := NoOp; application_args := []; group_size := gsize |}.

End Donation.

(** ** Python values and exceptions of the client-side helpers *)
Module Py.

(** The exceptions the helpers raise or let through. [Exception] is the
    plain [Exception(msg)] the scripts raise themselves. *)
Inductive exn : Type :=
| Exception (msg : string)
| KeyError (key : string)
| BinasciiError
| UnicodeDecodeError
| ClientError (msg : string).

Inductive result (A : Type) : Type :=
| Ok (a : A)
| Raise (e : exn).
Arguments Ok {A} a.
Arguments Raise {A} e.

Definition bind {A B} (r : result A) (k : A -> result B) : result B :=
  match r with
  | Ok a => k a
  | Raise e => Raise e
  end.

Declare Scope py_scope.
Delimit Scope py_scope with py.
Notation "'let?' x ':=' e 'in' k" := (bind e (fun x => k))
  (at level 10, x name, e at level 100, k at level 200) : py_scope.

(** [d[key]] on a dictionary entry that may be absent. *)
Definition getitem {A} (key : string) (field : option A) : result A :=
  match field with
  | Some a => Ok a
  | None => Raise (KeyError key)
  end.

(** [d.get(key, dflt)]. *)
Definition get {A} (field : option A) (dflt : A) : A := default dflt field.

(** Truth value of a string: the empty string is false. *)
Definition truthy (s : string) : bool := negb (String.eqb s "").

(** ['{}'.format(n)] for an integer. *)
Definition format_int (n : Z) : string := pretty n.

(** A value stored in a formatted state: [str], [bytes] or [int].
    A [str] is kept as its UTF-8 encoding. *)
Inductive val : Type :=
| PyStr (s : string)
| PyBytes (b : string)
| PyInt (n : Z).

End Py.

(** ** wait_for_confirmation

    The same loop appears in [counter_contract.py], in
    [donation_smart_sig.py] and, as [_wait_for_confirmation], in
    [tests/helpers.py]. *)
Module Client.
Import Py.

(** The fields of a pending-transaction record that the scripts read. *)
Record PendingTxn : Type := {
  confirmed_round : option Z;
  pool_error : option string;
  application_index : option Z
}.

(** The node as seen through the algod client: what [status()] reports,
    what the [n]-th call of [pending_transaction_info] for a transaction
    answers, and whether [status_after_block(round)] comes back. *)
Record AlgodClient : Type := {
  status_last_round : result Z;
  pending_transaction_info : string -> nat -> result PendingTxn;
  status_after_block : Z -> result unit
}.

Definition pool_error_message (err : string) : string :=
  "pool error: " +:+ err.

Definition timeout_message (timeout : Z) : string :=
  "pending tx not found in timeout rounds, timeout value = : " +:+ format_int timeout.

(** The [while] loop. [polls] counts the calls of
    [pending_transaction_info] made so far; the second component of the
    result is that count when the loop is left. [Ok None] is the bare
    [return] of the [except] branch. *)
Equations? wait_loop (client : AlgodClient) (transaction_id : string)
    (start_round timeout current_round : Z) (polls : nat)
    : result (option PendingTxn) * nat
    by wf (Z.to_nat (start_round + timeout - current_round)) lt :=
  wait_loop client transaction_id start_round timeout current_round polls
    with Z_lt_dec current_round (start_round + timeout) => {
    | left _ =>
        match pending_transaction_info client transaction_id polls with
        | Raise _ => (Ok None, S polls)
        | Ok pending_txn =>
            if 0 <? get (confirmed_round pending_txn) 0
            then (Ok (Some pending_txn), S polls)
            else
              match getitem "pool-error" (pool_error pending_txn) with
              | Raise e => (Raise e, S polls)
              | Ok err =>
                  if truthy err
                  then (Raise (Exception (pool_error_message err)), S polls)
                  else
                    match status_after_block client current_round with
                    | Raise e => (Raise e, S polls)
                    | Ok _ =>
                        wait_loop client transaction_id start_round timeout
                          (current_round + 1) (S polls)
                    end
              end
        end
    | right _ => (Raise (Exception (timeout_message timeout)), polls)
    }.
Proof. lia. Qed.

(** A record that reports neither a confirmation nor a pool error. *)
Definition pending (p : PendingTxn) : Prop :=
  get (confirmed_round p) 0 <= 0 /\ pool_error p = Some "".

(** The [k] polls starting with poll number [polls], made at the rounds
    from [round] on, all find the transaction pending, and each wait for
    the next block comes back. *)
Definition quiet (client : AlgodClient) (transaction_id : string)
    (round : Z) (polls k : nat) : Prop :=
  forall i, (i < k)%nat ->
    (exists p, pending_transaction_info client transaction_id (polls + i) = Ok p
               /\ pending p)
    /\ status_after_block client (round + Z.of_nat i) = Ok tt.

(** Example nodes: the last round is 10, every wait for a block comes
    back, and the polls are answered by [answers]. *)
Definition scripted_client (answers : nat -> result PendingTxn) : AlgodClient :=
  {| status_last_round := Ok 10;
     pending_transaction_info := fun _ n => answers n;
     status_after_block := fun _ => Ok tt |}.

Definition pending_record : PendingTxn :=
  {| confirmed_round := None; pool_error := Some ""; application_index := None |}.

Definition confirmed_record (round : Z) : PendingTxn :=
  {| confirmed_round := Some round; pool_error := Some ""; application_index := None |}.

Definition rejected_record (err : string) : PendingTxn :=
  {| confirmed_round := None; pool_error := Some err; application_index := None |}.

(** Confirmed in round 13, seen by the third poll. *)
Definition confirming_client : AlgodClient :=
  scripted_client (fun n => if (n <? 2)%nat then Ok pending_record
                            else Ok (confirmed_record 13)).

(** Dropped from the pool, seen by the second poll. *)
Definition rejecting_client : AlgodClient :=
  scripted_client (fun n => if (n <? 1)%nat then Ok pending_record
                            else Ok (rejected_record "overspend")).

(** Never confirmed. *)
Definition silent_client : AlgodClient :=
  scripted_client (fun _ => Ok pending_record).

(** The node fails to answer the first poll. *)
Definition failing_client : AlgodClient :=
  scripted_client (fun _ => Raise (ClientError "Network request error")).

Definition wait_for_confirmation (client : AlgodClient) (transaction_id : string)
    (timeout : Z) : result (option PendingTxn) * nat :=
  match status_last_round client with
  | Raise e => (Raise e, 0%nat)
  | Ok last_round =>
      let start_round := last_round + 1 in
      wait_loop client transaction_id start_round timeout start_round 0
  end.

End Client.

(** ** format_state and get_app_global_state

    The node returns the global state of an application as a list of
    entries [{'key': k, 'value': {'type': t, 'bytes': b, 'uint': n}}],
    keys and byte values in base64. *)
Module StateFormat.
Import Py.
Local Open Scope py_scope.

Record TealValue : Type := {
  type : Z;
  bytes : option string;
  uint : option Z
}.

Record TealKeyValue : Type := {
  key : string;
  value : TealValue
}.

(** [for item in items: acc = body acc item], leaving at the first
    exception. *)
Fixpoint for_each {A S} (body : S -> A -> result S) (items : list A) (acc : S)
    : result S :=
  match items with
  | [] => Ok acc
  | item :: rest => let? acc' := body acc item in for_each body rest acc'
  end.

Section Formatter.
(** [base64.b64decode] and [bytes.decode('utf-8')] of the Python
    library. *)
Variable b64decode : string -> result string.
Variable utf8_decode : string -> result string.

(** [base64.b64decode(item['key']).decode('utf-8')]. *)
Definition formatted_key_of (item : TealKeyValue) : result string :=
  let? key_bytes := b64decode (key item) in utf8_decode key_bytes.

(** The body of the loop of [format_state] (counter_contract.py). *)
Definition format_item (formatted : gmap string val) (item : TealKeyValue)
    : result (gmap string val) :=
  let key := key item in
  let value := value item in
  let? key_bytes := b64decode key in
  let? formatted_key := utf8_decode key_bytes in
  if type value =? 1 then
    let? formatted_value :=
      (if String.eqb formatted_key "voted" then
         let? raw := getitem "bytes" (bytes value) in
         let? decoded := b64decode raw in
         utf8_decode decoded
       else
         getitem "bytes" (bytes value)) in
    Ok (<[formatted_key := PyStr formatted_value]> formatted)
  else
    let? n := getitem "uint" (uint value) in
    Ok (<[formatted_key := PyInt n]> formatted).

Definition format_state (state : list TealKeyValue) : result (gmap string val) :=
  for_each format_item state ∅.

Definition unexpected_type_message (value_type : Z) : string :=
  "Unexpected state type: " +:+ format_int value_type.

(** The body of the loop of [get_app_global_state] (tests/helpers.py). *)
Definition global_state_item (state : gmap string val) (pair : TealKeyValue)
    : result (gmap string val) :=
  let? key := b64decode (key pair) in
  let value := value pair in
  let value_type := type value in
  let? value :=
    (if value_type =? 1 then
       let? b := b64decode (get (bytes value) "") in Ok (PyBytes b)
     else if value_type =? 2 then
       Ok (PyInt (get (uint value) 0))
     else
       Raise (Exception (unexpected_type_message value_type))) in
  Ok (<[key := value]> state).

(** [get_app_global_state], from the list found under
    [app_info["params"]["global-state"]]. *)
Definition get_app_global_state (global_state : list TealKeyValue)
    : result (gmap string val) :=
  for_each global_state_item global_state ∅.

End Formatter.

(** *** Reference codecs

    Base64 over the standard alphabet with padding, and strict UTF-8
    validation: what the Python library computes on the canonical
    encodings the node sends. *)

Definition b64_value (c : ascii) : option N :=
  let n := N_of_ascii c in
  (if (65 <=? n) && (n <=? 90) then Some (n - 65)
   else if (97 <=? n) && (n <=? 122) then Some (n - 71)
   else if (48 <=? n) && (n <=? 57) then Some (n + 4)
   else if n =? 43 then Some 62
   else if n =? 47 then Some 63
   else None)%N.

Definition is_pad (c : ascii) : bool := (N_of_ascii c =? 61)%N.

Definition byte_of (n : N) : ascii := ascii_of_N (n mod 256)%N.

Fixpoint base64_b64decode (s : string) : result string :=
  match s with
  | EmptyString => Ok EmptyString
  | String c1 (String c2 (String c3 (String c4 rest))) =>
      match b64_value c1, b64_value c2 with
      | Some v1, Some v2 =>
          let b1 := byte_of (v1 * 4 + v2 / 16) in
          match b64_value c3 with
          | Some v3 =>
              let b2 := byte_of (v2 * 16 + v3 / 4) in
              match b64_value c4 with
              | Some v4 =>
                  let b3 := byte_of (v3 * 64 + v4) in
                  let? tail := base64_b64decode rest in
                  Ok (String b1 (String b2 (String b3 tail)))
              | None =>
                  if is_pad c4 && String.eqb rest ""
                  then Ok (String b1 (String b2 EmptyString))
                  else Raise BinasciiError
              end
          | None =>
              if is_pad c3 && is_pad c4 && String.eqb rest ""
              then Ok (String b1 EmptyString)
              else Raise BinasciiError
          end
      | _, _ => Raise BinasciiError
      end
  | _ => Raise BinasciiError
  end.

Definition in_range (lo hi : N) (c : ascii) : bool :=
  ((lo <=? N_of_ascii c) && (N_of_ascii c <=? hi))%N.

Fixpoint utf8_valid (s : string) : bool :=
  match s with
  | EmptyString => true
  | String c1 rest =>
      if in_range 0 127 c1 then utf8_valid rest
      else if in_range 194 223 c1 then
        match rest with
        | String c2 r => in_range 128 191 c2 && utf8_valid r
        | _ => false
        end
      else if in_range 224 239 c1 then
        match rest with
        | String c2 (String c3 r) =>
            (if in_range 224 224 c1 then in_range 160 191 c2
             else if in_range 237 237 c1 then in_range 128 159 c2
             else in_range 128 191 c2)
            && in_range 128 191 c3 && utf8_valid r
        | _ => false
        end
      else if in_range 240 244 c1 then
        match rest with
        | String c2 (String c3 (String c4 r)) =>
            (if in_range 240 240 c1 then in_range 144 191 c2
             else if in_range 244 244 c1 then in_range 128 143 c2
             else in_range 128 191 c2)
            && in_range 128 191 c3 && in_range 128 191 c4 && utf8_valid r
        | _ => false
        end
      else false
  end.

Definition bytes_decode_utf8 (b : string) : result string :=
  if utf8_valid b then Ok b else Raise UnicodeDecodeError.

(** An entry whose discriminant is neither 1 nor 2, under the key
    "Count" (base64 [Q291bnQ=]). *)
Definition unknown_type_state : list TealKeyValue :=
  [ {| key := "Q291bnQ=";
       value := {| type := 3; bytes := Some ""; uint := Some 7 |} |} ].

(** A uint counter, a byte string under "voted" (base64 of "yes") and a
    byte string under "Creator" (base64 of "abc"). *)
Definition count_entry : TealKeyValue :=
  {| key := "Q291bnQ=";
     value := {| type := 2; bytes := Some ""; uint := Some 3 |} |}.

Definition voted_entry : TealKeyValue :=
  {| key := "dm90ZWQ=";
     value := {| type := 1; bytes := Some "eWVz"; uint := Some 0 |} |}.

Definition creator_entry : TealKeyValue :=
  {| key := "Q3JlYXRvcg==";
     value := {| type := 1; bytes := Some "YWJj"; uint := Some 0 |} |}.

Definition sample_state : list TealKeyValue :=
  [ count_entry; voted_entry; creator_entry ].

End StateFormat.

(** ** Arbitrary traffic on the counter application *)
Module CounterCalls.
Import Teal Counter.

(** The verdict of the approval program on the call: whether the ledger
    accepts it, for every on-completion action but ClearState (for which
    the ledger runs [clear_state_program] and not this program). *)
Definition approved (ctx : Context) (g : gmap string StackValue) : bool :=
  fst (apply_call approval_program ctx g).

(** Any sequence of application calls, whatever their fields, each applied
    to the state the previous one left. *)
Definition run_calls (ctxs : list Context) (g : gmap string StackValue)
    : gmap string StackValue :=
  fold_left (fun g ctx => call ctx g) ctxs g.

(** The call of [test_two_adds]: the argument is spelled "add". *)
Definition lowercase_add_call : Context := noop_call 7 ["add"] 1.

(** A counter at the top of the uint64 range. *)
Definition full_counter : gmap string StackValue :=
  {[ "Count" := VUint uint64_max ]}.

(** A global state with a second key beside the counter. *)
Definition annotated_counter : gmap string StackValue :=
  <["Note" := VBytes "hello"]> {[ "Count" := VUint 4 ]}.

(** An opt-in call of the existing application. *)
Definition optin_call : Context :=
  {| type_enum := ApplicationCall; receiver := ""; application_id := 7;
     on_completion := OptIn; application_args := []; group_size := 1 |}.

End CounterCalls.

(** ** More nodes for wait_for_confirmation *)
Module ClientCases.
Import Py Client.

(** A record without the "pool-error" key. *)
Definition keyless_record : PendingTxn :=
  {| confirmed_round := None; pool_error := None; application_index := None |}.

(** The second poll answers with a record that lacks "pool-error". *)
Definition keyless_client : AlgodClient :=
  scripted_client (fun n => if (n <? 1)%nat then Ok pending_record else Ok keyless_record).

(** The node answers the polls but fails while waiting for round 12. *)
Definition stalled_client : AlgodClient :=
  {| status_last_round := Ok 10;
     pending_transaction_info := fun _ _ => Ok pending_record;
     status_after_block := fun round =>
       if round =? 12 then Raise (ClientError "Network request error") else Ok tt |}.

(** Four polls find the transaction pending; the node fails to answer the
    fifth, the last one a wait of 5 rounds allows. *)
Definition late_failing_client : AlgodClient :=
  scripted_client (fun n => if (n <? 4)%nat then Ok pending_record
                            else Raise (ClientError "Network request error")).

End ClientCases.

(** ** donation_smart_sig.py: its own wait_for_confirmation

    The script has a copy of the loop of its own; it differs from the one
    of [counter_contract.py] in the text of the timeout exception. *)
Module DonationClient.
Import Py Client.

Definition donation_timeout_message (timeout : Z) : string :=
  "pending tx not found in timeout rounds, timeout value = " +:+ format_int timeout.

Equations? donation_wait_loop (client : AlgodClient) (transaction_id : string)
    (start_round timeout current_round : Z) (polls : nat)
    : result (option PendingTxn) * nat
    by wf (Z.to_nat (start_round + timeout - current_round)) lt :=
  donation_wait_loop client transaction_id start_round timeout current_round polls
    with Z_lt_dec current_round (start_round + timeout) => {
    | left _ =>
        match pending_transaction_info client transaction_id polls with
        | Raise _ => (Ok None, S polls)
        | Ok pending_txn =>
            if 0 <? get (confirmed_round pending_txn) 0
            then (Ok (Some pending_txn), S polls)
            else
              match getitem "pool-error" (pool_error pending_txn) with
              | Raise e => (Raise e, S polls)
              | Ok err =>
                  if truthy err
                  then (Raise (Exception (pool_error_message err)), S polls)
                  else
                    match status_after_block client current_round with
                    | Raise e => (Raise e, S polls)
                    | Ok _ =>
                        donation_wait_loop client transaction_id start_round timeout
                          (current_round + 1) (S polls)
                    end
              end
        end
    | right _ => (Raise (Exception (donation_timeout_message timeout)), polls)
    }.
Proof. lia. Qed.

Definition donation_wait_for_confirmation (client : AlgodClient)
    (transaction_id : string) (timeout : Z) : result (option PendingTxn) * nat :=
  match status_last_round client with
  | Raise e => (Raise e, 0%nat)
  | Ok last_round =>
      let start_round := last_round + 1 in
      donation_wait_loop client transaction_id start_round timeout start_round 0
  end.

End DonationClient.

(** ** The single-shot workflows of the scripts

    [create_app] and [call_app] of [counter_contract.py],
    [payment_transaction] and [lsig_payment_txn] of
    [donation_smart_sig.py]. Building and signing a transaction are local
    computations; a workflow is given the identifier of the signed
    transaction ([get_txid]). The second component of a result counts the
    calls of [pending_transaction_info]. *)
Module Workflow.
Import Py Client DonationClient.
Local Open Scope py_scope.

(** The algod client with the two further calls the workflows make:
    [suggested_params()] and [send_transaction(s)], which answers with the
    identifier of what was sent or raises when the pool refuses it. *)
Record Node : Type := {
  algod : AlgodClient;
  suggested_params : result unit;
  send_transaction : string -> result string
}.

Definition create_app (client : Node) (tx_id : string) : result Z * nat :=
  match suggested_params client with
  | Raise e => (Raise e, 0%nat)
  | Ok _ =>
      match send_transaction client tx_id with
      | Raise e => (Raise e, 0%nat)
      | Ok _ =>
          match wait_for_confirmation (algod client) tx_id 5 with
          | (Raise e, polls) => (Raise e, polls)
          | (Ok _, polls) =>
              match pending_transaction_info (algod client) tx_id polls with
              | Raise e => (Raise e, S polls)
              | Ok transaction_response =>
                  (getitem "application-index" (application_index transaction_response),
                   S polls)
              end
          end
      end
  end.

Definition call_app (client : Node) (tx_id : string) : result unit * nat :=
  match suggested_params client with
  | Raise e => (Raise e, 0%nat)
  | Ok _ =>
      match send_transaction client tx_id with
      | Raise e => (Raise e, 0%nat)
      | Ok _ =>
          match wait_for_confirmation (algod client) tx_id 5 with
          | (Raise e, polls) => (Raise e, polls)
          | (Ok _, polls) => (Ok tt, polls)
          end
      end
  end.

(** [payment_transaction] waits, with the loop of
    [donation_smart_sig.py], for the identifier that [send_transaction]
    answered. *)
Definition payment_transaction (algod_client : Node) (signed : string)
    : result (option PendingTxn) * nat :=
  match suggested_params algod_client with
  | Raise e => (Raise e, 0%nat)
  | Ok _ =>
      match send_transaction algod_client signed with
      | Raise e => (Raise e, 0%nat)
      | Ok txid => donation_wait_for_confirmation (algod algod_client) txid 5
      end
  end.

(** [lsig_payment_txn]: [decodebytes] is [base64.decodebytes], applied to
    the compiled escrow program; [logic_sign] stands for
    [LogicSig(program)] followed by [LogicSigTransaction(unsigned_txn,
    lsig)], which give the signed transaction or raise. Both happen before
    anything is sent. *)
Definition lsig_payment_txn (decodebytes : string -> result string)
    (logic_sign : string -> result string)
    (escrowProg : string) (algod_client : Node)
    : result (option PendingTxn) * nat :=
  match suggested_params algod_client with
  | Raise e => (Raise e, 0%nat)
  | Ok _ =>
      match decodebytes escrowProg with
      | Raise e => (Raise e, 0%nat)
      | Ok program =>
          match logic_sign program with
          | Raise e => (Raise e, 0%nat)
          | Ok stxn =>
              match send_transaction algod_client stxn with
              | Raise e => (Raise e, 0%nat)
              | Ok tx_id => donation_wait_for_confirmation (algod algod_client) tx_id 10
              end
          end
      end
  end.

(** A node that accepts every transaction, over the given algod client. *)
Definition accepting_node (client : AlgodClient) : Node :=
  {| algod := client;
     suggested_params := Ok tt;
     send_transaction := fun tx_id => Ok tx_id |}.

(** The creation is confirmed in round 12, seen by the second poll; from
    then on the record carries the application index 42. *)
Definition creating_client : AlgodClient :=
  scripted_client (fun n =>
    if (n <? 1)%nat then Ok pending_record
    else Ok {| confirmed_round := Some 12; pool_error := Some "";
               application_index := Some 42 |}).

End Workflow.

(** ** read_global_state (counter_contract.py) *)
Module StateReader.
Import Py StateFormat.
Local Open Scope py_scope.

(** An element of [results['created-apps']]: its ['id'] and what is under
    [['params']['global-state']], a key the node leaves out when the
    application has no global state. *)
Record CreatedApp : Type := {
  created_id : Z;
  created_global_state : option (list TealKeyValue)
}.

Section Reader.
Variable b64decode : string -> result string.
Variable utf8_decode : string -> result string.

(** The [for app in apps_created] loop and the [return {}] after it. *)
Fixpoint read_created_apps (apps_created : list CreatedApp) (app_id : Z)
    : result (gmap string val) :=
  match apps_created with
  | [] => Ok ∅
  | app :: rest =>
      if created_id app =? app_id then
        let? state := getitem "global-state" (created_global_state app) in
        format_state b64decode utf8_decode state
      else read_created_apps rest app_id
  end.

(** [account_info] is the answer of [client.account_info(addr)]: an
    exception, or what it holds under 'created-apps'. *)
Definition read_global_state (account_info : result (option (list CreatedApp)))
    (app_id : Z) : result (gmap string val) :=
  let? results := account_info in
  let? apps_created := getitem "created-apps" results in
  read_created_apps apps_created app_id.

End Reader.

(** The account of the creator in the script: an older application without
    state, and the counter after one Add. *)
Definition creator_apps : list CreatedApp :=
  [ {| created_id := 5; created_global_state := None |};
    {| created_id := 7;
       created_global_state :=
         Some [ {| key := "Q291bnQ=";
                   value := {| type := 2; bytes := Some ""; uint := Some 1 |} |} ] |} ].

(** An entry without its "bytes" and "uint" fields. *)
Definition bare_entry (t : Z) : TealKeyValue :=
  {| key := "Q291bnQ="; value := {| type := t; bytes := None; uint := None |} |}.

(** An entry whose key is not base64. *)
Definition garbled_entry : TealKeyValue :=
  {| key := "Q291bnQ"; value := {| type := 2; bytes := Some ""; uint := Some 1 |} |}.

End StateReader.

(** ** tests/helpers.py: the sandbox and the indexer *)
Module Sandbox.
Import Py.

(** The double quote character. *)
Definition quote : ascii := "034"%char.

(** [s.split(sep)] for a separator of one character. *)
Fixpoint split (sep : ascii) (s : string) : list string :=
  match s with
  | EmptyString => [EmptyString]
  | String c rest =>
      if Ascii.eqb c sep then EmptyString :: split sep rest
      else match split sep rest with
           | part :: parts => String c part :: parts
           | [] => [String c EmptyString]
           end
  end.

(** Whether the character occurs in the string. *)
Fixpoint occurs (c : ascii) (s : string) : bool :=
  match s with
  | EmptyString => false
  | String c' rest => Ascii.eqb c' c || occurs c rest
  end.

(** What [subprocess.run(..., capture_output=True)] hands back: the bytes
    the command wrote. *)
Record CompletedProcess : Type := {
  stdout : string;
  stderr : string
}.

(** The exceptions of [_cli_passphrase_for_account]: its own RuntimeError
    and ValueError (the latter formats the address and the output into its
    message), and what decoding the output may raise. *)
Inductive cli_exn : Type :=
| RuntimeError (msg : string)
| ValueError (address output : string)
| Raised (e : exn).

Section Cli.
Variable utf8_decode : string -> result string.

(** [_cli_passphrase_for_account(address)], from the completed
    [goal account export] process. *)
Definition cli_passphrase_for_account (process : CompletedProcess) (address : string)
    : cli_exn + string :=
  if truthy (stderr process) then
    match utf8_decode (stderr process) with
    | Ok msg => inl (RuntimeError msg)
    | Raise e => inl (Raised e)
    end
  else
    match utf8_decode (stdout process) with
    | Raise e => inl (Raised e)
    | Ok output =>
        let passphrase := "" in
        let parts := split quote output in
        let passphrase :=
          if (1 <? List.length parts)%nat then nth 1 parts "" else passphrase in
        if String.eqb passphrase "" then inl (ValueError address output)
        else inr passphrase
    end.

End Cli.

(** The output of [goal account export] for a (shortened) passphrase. *)
Definition exported_output : string :=
  "Exported key for account ABC: " +:+ String quote ("abandon ability able" +:+ String quote "").

(** An account as the indexer lists it; every field may be absent. *)
Record Account : Type := {
  address : option string;
  created_at_round : option Z;
  status : option string
}.

Definition empty_account : Account :=
  {| address := None; created_at_round := None; status := None |}.

(** [account.get("created-at-round") == 0 and
     account.get("status") == "Offline"]. *)
Definition is_initial (account : Account) : bool :=
  match created_at_round account with Some r => r =? 0 | None => false end
  && match status account with Some st => String.eqb st "Offline" | None => false end.

(** [_initial_funds_address()], from what the indexer's answer holds under
    "accounts" (None when the key is absent). *)
Definition initial_funds_address (accounts : option (list Account)) : option string :=
  match find is_initial (get accounts [empty_account; empty_account]) with
  | Some account => address account
  | None => None
  end.

Definition listed_accounts : list Account :=
  [ {| address := Some "USER"; created_at_round := Some 8; status := Some "Offline" |};
    {| address := Some "ONLINE"; created_at_round := Some 0; status := Some "Online" |};
    {| address := Some "FUNDER"; created_at_round := Some 0; status := Some "Offline" |};
    {| address := Some "OTHER"; created_at_round := Some 0; status := Some "Offline" |} ].

End Sandbox.

(** ** Evaluation lemmas for the TEAL fragment *)
Module TealFacts.
Import Teal.

(** Unfolds the combinators of the embedding, leaving the tests on the
    context and the lookups in the state. *)
Ltac teal_unfold :=
  cbv beta iota zeta delta
    [Cond Seq If Return ebind ret panic as_uint as_bytes of_bool
     And And2 fold_left Eq Gt Add Minus Int Bytes Addr
     Txn_application_id Txn_on_completion Txn_type_enum Txn_receiver
     Global_group_size Txn_application_args
     App_globalGet App_globalPut ScratchVar_store ScratchVar_load
     nth_error globals scratch].

Lemma Cond_cons_bool c body rest t ctx m :
  c ctx m = Value (of_bool t) m ->
  Cond ((c, body) :: rest) ctx m = if t then body ctx m else Cond rest ctx m.
Proof.
  intros Hc. cbn [Cond]. unfold ebind at 1. rewrite Hc.
  destruct t; reflexivity.
Qed.

Lemma Cond_cons_panic c body rest ctx m :
  c ctx m = Panic -> Cond ((c, body) :: rest) ctx m = Panic.
Proof. intros Hc. cbn [Cond]. unfold ebind at 1. rewrite Hc. reflexivity. Qed.

Lemma Eq_application_id k ctx m :
  Eq Txn_application_id (Int k) ctx m = Value (of_bool (application_id ctx =? k)) m.
Proof. reflexivity. Qed.

Lemma Eq_on_completion k ctx m :
  Eq Txn_on_completion (Int k) ctx m
  = Value (of_bool (OnComplete_value (on_completion ctx) =? k)) m.
Proof. reflexivity. Qed.

End TealFacts.

(** ** The counter: evaluation of the approval program *)
Module CounterFacts.
Import Teal Counter TealFacts.

(** The guard of each clause of [handle_noop]. *)
Lemma noop_guard name ctx m :
  And (Eq Global_group_size (Int 1)) [Eq (Txn_application_args 0) (Bytes name)] ctx m
  = match application_args ctx with
    | [] => Panic
    | a :: _ => Value (of_bool ((group_size ctx =? 1) && String.eqb a name)) m
    end.
Proof.
  teal_unfold. destruct (application_args ctx) as [|a rest]; [reflexivity|].
  destruct (group_size ctx =? 1), (String.eqb a name); reflexivity.
Qed.

Lemma approval_program_dispatch ctx m :
  approval_program ctx m =
    if application_id ctx =? 0 then on_creation ctx m
    else match on_completion ctx with
         | NoOp => handle_noop ctx m
         | ClearState => Panic
         | _ => Returned 0 m
         end.
Proof.
  unfold approval_program.
  erewrite Cond_cons_bool by apply Eq_application_id.
  destruct (application_id ctx =? 0); [reflexivity|].
  repeat (erewrite Cond_cons_bool by apply Eq_on_completion).
  destruct (on_completion ctx); reflexivity.
Qed.

Lemma handle_noop_dispatch ctx m :
  handle_noop ctx m =
    match application_args ctx with
    | [] => Panic
    | a :: _ =>
        if (group_size ctx =? 1) && String.eqb a "Add" then add ctx m
        else if (group_size ctx =? 1) && String.eqb a "Deduct" then deduct ctx m
        else Panic
    end.
Proof.
  unfold handle_noop.
  destruct (application_args ctx) as [|a rest] eqn:Hargs.
  - apply Cond_cons_panic. rewrite noop_guard, Hargs. reflexivity.
  - erewrite Cond_cons_bool by (rewrite noop_guard, Hargs; reflexivity).
    destruct (_ && _); [reflexivity|].
    erewrite Cond_cons_bool by (rewrite noop_guard, Hargs; reflexivity).
    reflexivity.
Qed.

Lemma on_creation_eval ctx m :
  on_creation ctx m =
    Returned 1 {| globals := <["Count" := VUint 0]> (globals m); scratch := scratch m |}.
Proof. reflexivity. Qed.

Lemma add_eval ctx m :
  add ctx m =
    match default (VUint 0) (globals m !! "Count") with
    | VUint v =>
        if v + 1 <=? uint64_max
        then Returned 1 {| globals := <["Count" := VUint (v + 1)]> (globals m);
                           scratch := <[scratchCount := VUint v]> (scratch m) |}
        else Panic
    | VBytes _ => Panic
    end.
Proof.
  destruct m as [g sc]. unfold add; teal_unfold.
  rewrite lookup_insert_eq. cbn [default].
  destruct (default (VUint 0) (g !! "Count")) as [v|b]; [|reflexivity].
  cbn -[Z.leb Z.add uint64_max]. destruct (v + 1 <=? uint64_max); reflexivity.
Qed.

Lemma deduct_eval ctx m :
  deduct ctx m =
    match default (VUint 0) (globals m !! "Count") with
    | VUint v =>
        if 0 <? v
        then (if 1 <=? v
              then Returned 1 {| globals := <["Count" := VUint (v - 1)]> (globals m);
                                 scratch := <[scratchCount := VUint v]> (scratch m) |}
              else Panic)
        else Returned 1 {| globals := globals m;
                           scratch := <[scratchCount := VUint v]> (scratch m) |}
    | VBytes _ => Panic
    end.
Proof.
  destruct m as [g sc]. unfold deduct; teal_unfold.
  rewrite lookup_insert_eq. cbn [default].
  destruct (default (VUint 0) (g !! "Count")) as [v|b]; [|reflexivity].
  cbn -[Z.ltb Z.leb Z.sub]. destruct (0 <? v); [|reflexivity].
  cbn -[Z.leb Z.sub]. rewrite lookup_insert_eq.
  cbn -[Z.leb Z.sub]. destruct (1 <=? v); reflexivity.
Qed.


Lemma approval_solo name ctx m :
  is_solo_call name ctx -> approval_program ctx m = handle_noop ctx m.
Proof.
  intros (Hid & Hoc & _). rewrite approval_program_dispatch, Hoc.
  apply Z.eqb_neq in Hid. rewrite Hid. reflexivity.
Qed.

Lemma call_Add ctx g :
  is_solo_call "Add" ctx ->
  apply_call approval_program ctx g =
    match default (VUint 0) (g !! "Count") with
    | VUint v => if v + 1 <=? uint64_max
                 then (true, <["Count" := VUint (v + 1)]> g) else (false, g)
    | VBytes _ => (false, g)
    end.
Proof.
  intros Hsolo. unfold apply_call. rewrite (approval_solo _ _ _ Hsolo).
  destruct Hsolo as (_ & _ & Hgs & Hargs).
  rewrite handle_noop_dispatch.
  destruct (application_args ctx) as [|a rest]; [discriminate|].
  injection Hargs as ->. rewrite Hgs. cbn [Z.eqb Pos.eqb andb String.eqb Ascii.eqb Bool.eqb].
  rewrite add_eval. cbn [fresh globals].
  destruct (default (VUint 0) (g !! "Count")) as [v|b]; [|reflexivity].
  destruct (v + 1 <=? uint64_max); reflexivity.
Qed.

Lemma call_Deduct ctx g :
  is_solo_call "Deduct" ctx ->
  apply_call approval_program ctx g =
    match default (VUint 0) (g !! "Count") with
    | VUint v => if 0 <? v then (true, <["Count" := VUint (v - 1)]> g) else (true, g)
    | VBytes _ => (false, g)
    end.
Proof.
  intros Hsolo. unfold apply_call. rewrite (approval_solo _ _ _ Hsolo).
  destruct Hsolo as (_ & _ & Hgs & Hargs).
  rewrite handle_noop_dispatch.
  destruct (application_args ctx) as [|a rest]; [discriminate|].
  injection Hargs as ->. rewrite Hgs. cbn [Z.eqb Pos.eqb andb String.eqb Ascii.eqb Bool.eqb].
  rewrite deduct_eval. cbn [fresh globals].
  destruct (default (VUint 0) (g !! "Count")) as [v|b]; [|reflexivity].
  destruct (0 <? v) eqn:Hv; [|reflexivity].
  apply Z.ltb_lt in Hv. assert (H1 : (1 <=? v) = true) by (apply Z.leb_le; lia).
  rewrite H1. reflexivity.
Qed.

Lemma op_txn_solo app_id op :
  app_id <> 0 -> is_solo_call (op_arg op) (op_txn app_id op).
Proof. intros Hid. repeat split; assumption. Qed.

Lemma created_eq : created = {[ "Count" := VUint 0 ]}.
Proof. reflexivity. Qed.

(** In a group that is not a singleton neither guard of [handle_noop]
    holds (or the first argument is missing): the program fails. *)
Lemma handle_noop_group ctx m :
  group_size ctx <> 1 ->
  handle_noop ctx m = Panic.
Proof.
  intros Hgs. rewrite handle_noop_dispatch.
  destruct (application_args ctx) as [|a rest]; [reflexivity|].
  apply Z.eqb_neq in Hgs. rewrite Hgs. reflexivity.
Qed.

(** Every call, approved or not, keeps the counter an unsigned 64-bit
    integer. *)
Lemma call_preserves_counter_ok ctx g :
  counter_ok g -> counter_ok (call ctx g).
Proof.
  intros (v & Hv & Hrange). unfold counter_ok, count_of in *.
  assert (Hsame : exists v0, g !! "Count" = Some (VUint v0) /\ 0 <= v0 <= uint64_max)
    by (exists v; split; assumption).
  unfold call, apply_call.
  rewrite approval_program_dispatch.
  destruct (application_id ctx =? 0).
  { rewrite on_creation_eval. cbn. exists 0. rewrite lookup_insert_eq.
    split; [reflexivity | unfold uint64_max; lia]. }
  destruct (on_completion ctx); try exact Hsame.
  rewrite handle_noop_dispatch.
  destruct (application_args ctx) as [|a rest]; [exact Hsame|].
  destruct (_ && _).
  { rewrite add_eval. cbn [fresh globals]. rewrite Hv. cbn [default from_option id].
    destruct (v + 1 <=? uint64_max) eqn:Hle; [|exact Hsame].
    apply Z.leb_le in Hle. exists (v + 1). cbn. rewrite lookup_insert_eq.
    split; [reflexivity | lia]. }
  destruct (_ && _); [|exact Hsame].
  rewrite deduct_eval. cbn [fresh globals]. rewrite Hv. cbn [default from_option id].
  destruct (0 <? v) eqn:Hpos; [|exact Hsame].
  apply Z.ltb_lt in Hpos.
  destruct (1 <=? v); [|exact Hsame].
  exists (v - 1). cbn. rewrite lookup_insert_eq. split; [reflexivity | lia].
Qed.

Lemma created_counter_ok : counter_ok created.
Proof. exists 0. split; [reflexivity | unfold uint64_max; lia]. Qed.

Lemma run_ops_counter_ok app_id ops g :
  counter_ok g -> counter_ok (run_ops app_id ops g).
Proof.
  revert g. induction ops as [|op ops IH]; intros g Hg; [exact Hg|].
  cbn. apply IH, call_preserves_counter_ok, Hg.
Qed.

(** One solo operation moves the counter as the state machine says, as
    long as an Add does not overflow. *)
Lemma call_op_count app_id op g v :
  app_id <> 0 -> count_of g = Some (VUint v) -> 0 <= v -> v + 1 <= uint64_max ->
  count_of (call (op_txn app_id op) g) = Some (VUint (step_spec v op)).
Proof.
  intros Hid Hv H0 Hmax. unfold count_of in *. unfold call.
  destruct op; cbn [step_spec].
  - rewrite (call_Add _ _ (op_txn_solo app_id OpAdd Hid)), Hv. cbn [default from_option id].
    apply Z.leb_le in Hmax. rewrite Hmax. cbn. apply lookup_insert_eq.
  - rewrite (call_Deduct _ _ (op_txn_solo app_id OpDeduct Hid)), Hv.
    cbn [default from_option id].
    destruct (0 <? v) eqn:Hpos; cbn.
    + apply Z.ltb_lt in Hpos. rewrite lookup_insert_eq. do 2 f_equal. lia.
    + apply Z.ltb_ge in Hpos. rewrite Hv. do 2 f_equal. lia.
Qed.

Lemma step_spec_bounds v op : 0 <= v -> 0 <= step_spec v op <= v + 1.
Proof. destruct op; cbn; lia. Qed.

Lemma run_ops_count app_id ops : forall g v,
  app_id <> 0 -> count_of g = Some (VUint v) -> 0 <= v ->
  v + Z.of_nat (length ops) <= uint64_max ->
  count_of (run_ops app_id ops g) = Some (VUint (fold_left step_spec ops v)).
Proof.
  induction ops as [|op ops IH]; intros g v Hid Hv H0 Hlen; [exact Hv|].
  cbn [run_ops fold_left]. cbn [length] in Hlen.
  pose proof (step_spec_bounds v op H0) as Hb.
  apply IH; [assumption | | lia | lia].
  apply call_op_count; [assumption | assumption | assumption | lia].
Qed.

Lemma max_suffix_net_lower ops : 0 <= max_suffix_net ops /\ net ops <= max_suffix_net ops.
Proof.
  induction ops as [|op ops IH]; [cbn; lia|].
  cbn [max_suffix_net]. lia.
Qed.

(** The clamped walk in closed form. *)
Lemma fold_step_spec_closed ops : forall v,
  0 <= v -> fold_left step_spec ops v = Z.max (v + net ops) (max_suffix_net ops).
Proof.
  induction ops as [|op ops IH]; intros v Hv; [cbn; lia|].
  cbn [fold_left]. pose proof (step_spec_bounds v op Hv) as Hb.
  rewrite IH by lia. pose proof (max_suffix_net_lower ops) as Hl.
  destruct op; cbn [step_spec net max_suffix_net]; lia.
Qed.

Lemma net_app pre post : net (pre ++ post)%list = net pre + net post.
Proof.
  induction pre as [|op pre IH]; [reflexivity|].
  cbn [app net]. destruct op; lia.
Qed.

(** [max_suffix_net] is 0 or the net of some suffix. *)
Lemma max_suffix_net_attained ops :
  max_suffix_net ops = 0 \/
  exists pre post, ops = (pre ++ post)%list /\ max_suffix_net ops = net post.
Proof.
  induction ops as [|op ops IH]; [left; reflexivity|].
  cbn [max_suffix_net].
  destruct (Z.max_spec (net (op :: ops)) (max_suffix_net ops)) as [[_ ->]|[_ ->]].
  - destruct IH as [H0|(pre & post & -> & Hnet)]; [left; exact H0|].
    right. exists (op :: pre), post. split; [reflexivity | exact Hnet].
  - right. exists [], (op :: ops). split; reflexivity.
Qed.

(** ** The counter: claims *)

(** The scenarios of [tests/test_counter_contract.py]. *)
Example test_add_deduct :
  count_of (run_ops 1 [OpAdd; OpAdd; OpAdd] created) = Some (VUint 3) /\
  count_of (run_ops 1 [OpAdd; OpAdd; OpAdd; OpDeduct; OpDeduct] created) = Some (VUint 1).
Proof. split; reflexivity. Qed.

Example test_deduct_below_zero :
  count_of (run_ops 1 [OpDeduct] created) = Some (VUint 0) /\
  count_of (run_ops 1 [OpDeduct; OpAdd; OpDeduct; OpDeduct] created) = Some (VUint 0).
Proof. split; reflexivity. Qed.

(** An Add on a counter that holds 2^64 - 1 overflows: the call is
    rejected and the counter keeps its value. *)
Lemma add_at_uint64_max ctx g :
  is_solo_call "Add" ctx -> count_of g = Some (VUint uint64_max) ->
  apply_call approval_program ctx g = (false, g).
Proof.
  intros Hsolo Hv. unfold count_of in Hv. rewrite (call_Add _ _ Hsolo), Hv. reflexivity.
Qed.

(** C1, as stated, fails: after Deduct then Add the counter holds 1, while
    max(0, Adds - Deducts) is 0. *)
Lemma counter_formula_counterexample :
  count_of (run_ops 1 [OpDeduct; OpAdd] created) = Some (VUint 1) /\
  Z.max 0 (net [OpDeduct; OpAdd]) = 0 /\
  count_of (run_ops 1 [OpDeduct; OpAdd] created)
    <> Some (VUint (Z.max 0 (net [OpDeduct; OpAdd]))).
Proof. repeat split. vm_compute. discriminate. Qed.

(** C1 (amended): for every sequence of at most 2^64 - 1 solo Add/Deduct
    calls on a freshly created counter, the stored value is the one the
    state machine Add -> v+1, Deduct -> max(v-1, 0) reaches from 0. In
    closed form it is the largest value of Adds minus Deducts over the
    suffixes of the sequence (0 for the empty suffix); it is at least
    max(0, Adds - Deducts), and equal to it when no prefix of the sequence
    has more Deducts than Adds. *)
Theorem counter_value_after_ops app_id ops :
  app_id <> 0 -> Z.of_nat (length ops) <= uint64_max ->
  count_of (run_ops app_id ops created) = Some (VUint (counter_spec ops))
  /\ counter_spec ops = max_suffix_net ops
  /\ Z.max 0 (net ops) <= counter_spec ops
  /\ ((forall pre post, ops = (pre ++ post)%list -> 0 <= net pre) ->
      counter_spec ops = Z.max 0 (net ops)).
Proof.
  intros Hid Hlen.
  assert (Hclosed : counter_spec ops = max_suffix_net ops).
  { unfold counter_spec. rewrite fold_step_spec_closed by lia.
    pose proof (max_suffix_net_lower ops). lia. }
  pose proof (max_suffix_net_lower ops) as [Hnn Hge].
  split; [|split; [exact Hclosed|split]].
  - unfold counter_spec. apply run_ops_count; [exact Hid | reflexivity | lia | lia].
  - lia.
  - intros Hpre. rewrite Hclosed.
    assert (Hall : 0 <= net ops).
    { apply (Hpre ops []). symmetry. apply app_nil_r. }
    destruct (max_suffix_net_attained ops) as [H0|(pre & post & Hops & Hnet)]; [lia|].
    pose proof (Hpre pre post Hops) as Hp.
    assert (Hsum : net ops = net pre + net post) by (rewrite Hops; apply net_app).
    lia.
Qed.

Lemma counter_value_after_ops_witness :
  7 <> 0 /\ Z.of_nat (length [OpDeduct; OpAdd; OpAdd; OpDeduct]) <= uint64_max /\
  count_of (run_ops 7 [OpDeduct; OpAdd; OpAdd; OpDeduct] created) = Some (VUint 1).
Proof.
  split; [lia|]. split; [unfold uint64_max; cbn; lia|].
  apply (counter_value_after_ops 7 [OpDeduct; OpAdd; OpAdd; OpDeduct]);
    [lia | unfold uint64_max; cbn; lia].
Defined.

(** C6: a solo Deduct call on a counter that holds 0 is approved and
    leaves the global state, hence the value 0, unchanged. *)
Theorem deduct_at_zero ctx g :
  is_solo_call "Deduct" ctx -> count_of g = Some (VUint 0) ->
  apply_call approval_program ctx g = (true, g).
Proof.
  intros Hsolo Hv. unfold count_of in Hv. rewrite (call_Deduct _ _ Hsolo), Hv. reflexivity.
Qed.

Lemma deduct_at_zero_witness :
  is_solo_call "Deduct" (op_txn 7 OpDeduct) /\ count_of created = Some (VUint 0) /\
  apply_call approval_program (op_txn 7 OpDeduct) created = (true, created).
Proof.
  assert (Hsolo : is_solo_call "Deduct" (op_txn 7 OpDeduct))
    by (repeat split; cbn; lia).
  split; [exact Hsolo|]. split; [reflexivity|].
  apply (deduct_at_zero (op_txn 7 OpDeduct) created Hsolo). reflexivity.
Defined.

(** C7: in every state reached from creation by solo Add and Deduct calls
    the counter is an integer between 0 and 2^64 - 1, and when it is 0 a
    further Deduct is approved and changes nothing. *)
Theorem counter_never_negative app_id ops :
  app_id <> 0 ->
  exists v,
    count_of (run_ops app_id ops created) = Some (VUint v)
    /\ 0 <= v <= uint64_max
    /\ (v = 0 ->
        apply_call approval_program (op_txn app_id OpDeduct) (run_ops app_id ops created)
        = (true, run_ops app_id ops created)).
Proof.
  intros Hid.
  destruct (run_ops_counter_ok app_id ops created created_counter_ok) as (v & Hv & Hr).
  exists v. split; [exact Hv|]. split; [exact Hr|].
  intros ->. unfold count_of in Hv.
  rewrite (call_Deduct _ _ (op_txn_solo app_id OpDeduct Hid)), Hv. reflexivity.
Qed.

Lemma counter_never_negative_witness :
  7 <> 0 /\
  exists v,
    count_of (run_ops 7 [OpAdd; OpDeduct; OpDeduct] created) = Some (VUint v)
    /\ 0 <= v <= uint64_max
    /\ (v = 0 ->
        apply_call approval_program (op_txn 7 OpDeduct)
          (run_ops 7 [OpAdd; OpDeduct; OpDeduct] created)
        = (true, run_ops 7 [OpAdd; OpDeduct; OpDeduct] created)).
Proof.
  split; [lia|]. apply (counter_never_negative 7 [OpAdd; OpDeduct; OpDeduct]). lia.
Defined.

(** C8, as stated, fails: the creation call (application id 0) of a group
    of two is approved and writes the counter. *)
Lemma grouped_creation_counterexample :
  group_size grouped_create_txn <> 1 /\
  apply_call approval_program grouped_create_txn ∅ = (true, {[ "Count" := VUint 0 ]}).
Proof. split; [cbn; lia | reflexivity]. Qed.

(** The clear program, which the ledger runs in place of the approval
    program for a ClearState call, returns 1 whatever the call and its
    group, and writes nothing. *)
Lemma clear_state_program_eval ctx m : clear_state_program ctx m = Returned 1 m.
Proof. reflexivity. Qed.

(** C8 (amended): every call of an existing application (non-zero
    application id) on which the approval program runs (any on-completion
    action but ClearState) and whose group has a size other than 1 is
    rejected and leaves the global state unchanged; so a call that the
    approval program approves and that is not the creation has a group of
    exactly one member. *)
Theorem grouped_call_rejected ctx g :
  application_id ctx <> 0 -> on_completion ctx <> ClearState ->
  group_size ctx <> 1 ->
  apply_call approval_program ctx g = (false, g).
Proof.
  intros Hid Hoc Hgs. unfold apply_call. rewrite approval_program_dispatch.
  apply Z.eqb_neq in Hid. rewrite Hid.
  destruct (on_completion ctx); try reflexivity.
  rewrite (handle_noop_group _ _ Hgs). reflexivity.
Qed.

Lemma grouped_call_rejected_witness :
  application_id (noop_call 7 ["Add"] 2) <> 0
  /\ on_completion (noop_call 7 ["Add"] 2) <> ClearState
  /\ group_size (noop_call 7 ["Add"] 2) <> 1
  /\ apply_call approval_program (noop_call 7 ["Add"] 2) created = (false, created).
Proof.
  split; [cbn; lia|]. split; [cbn; discriminate|]. split; [cbn; lia|].
  apply (grouped_call_rejected (noop_call 7 ["Add"] 2) created);
    [cbn; lia | cbn; discriminate | cbn; lia].
Defined.

(** C9: a call of an existing application (non-zero application id) that
    completes with OptIn, CloseOut, UpdateApplication or DeleteApplication
    makes the approval program return 0: the call is rejected and the
    global state is unchanged. *)
Theorem other_on_completion_rejected ctx g :
  application_id ctx <> 0 ->
  In (on_completion ctx) [OptIn; CloseOut; UpdateApplication; DeleteApplication] ->
  approval_program ctx (fresh g) = Returned 0 (fresh g)
  /\ apply_call approval_program ctx g = (false, g).
Proof.
  intros Hid Hoc. unfold apply_call. rewrite approval_program_dispatch.
  apply Z.eqb_neq in Hid. rewrite Hid.
  cbn [In] in Hoc.
  destruct Hoc as [<-|[<-|[<-|[<-|[]]]]]; split; reflexivity.
Qed.

Lemma other_on_completion_rejected_witness :
  application_id {| type_enum := ApplicationCall; receiver := ""; application_id := 7;
                    on_completion := OptIn; application_args := []; group_size := 1 |} <> 0 /\
  apply_call approval_program
    {| type_enum := ApplicationCall; receiver := ""; application_id := 7;
       on_completion := OptIn; application_args := []; group_size := 1 |} created
  = (false, created).
Proof.
  split; [cbn; lia|].
  apply (other_on_completion_rejected
           {| type_enum := ApplicationCall; receiver := ""; application_id := 7;
              on_completion := OptIn; application_args := []; group_size := 1 |} created);
    [cbn; lia | cbn; auto].
Defined.

End CounterFacts.

(** ** wait_for_confirmation: the loop *)
Module ClientFacts.
Import Py Client.

Lemma wait_loop_unfold client txid start timeout current polls :
  wait_loop client txid start timeout current polls =
    if current <? start + timeout then
      match pending_transaction_info client txid polls with
      | Raise _ => (Ok None, S polls)
      | Ok pending_txn =>
          if 0 <? get (confirmed_round pending_txn) 0
          then (Ok (Some pending_txn), S polls)
          else
            match getitem "pool-error" (pool_error pending_txn) with
            | Raise e => (Raise e, S polls)
            | Ok err =>
                if truthy err
                then (Raise (Exception (pool_error_message err)), S polls)
                else
                  match status_after_block client current with
                  | Raise e => (Raise e, S polls)
                  | Ok _ => wait_loop client txid start timeout (current + 1) (S polls)
                  end
            end
      end
    else (Raise (Exception (timeout_message timeout)), polls).
Proof.
  rewrite (wait_loop_equation_1 client txid start timeout current polls).
  destruct (Z_lt_dec current (start + timeout)) as [Hlt|Hge]; cbn.
  - apply Z.ltb_lt in Hlt. rewrite Hlt. reflexivity.
  - apply Z.ltb_nlt in Hge. rewrite Hge. reflexivity.
Qed.

Lemma wait_loop_polls_bound client txid start timeout : forall n current polls,
  Z.to_nat (start + timeout - current) = n ->
  (snd (wait_loop client txid start timeout current polls) <= polls + n)%nat.
Proof.
  induction n as [|n IH]; intros current polls Hn; rewrite wait_loop_unfold.
  - assert (Hge : (current <? start + timeout) = false) by (apply Z.ltb_ge; lia).
    rewrite Hge. cbn. lia.
  - destruct (current <? start + timeout); [|cbn; lia].
    destruct (pending_transaction_info client txid polls) as [p|e]; [|cbn; lia].
    destruct (0 <? get (confirmed_round p) 0); [cbn; lia|].
    destruct (getitem "pool-error" (pool_error p)) as [err|e]; [|cbn; lia].
    destruct (truthy err); [cbn; lia|].
    destruct (status_after_block client current); [|cbn; lia].
    specialize (IH (current + 1) (S polls)). lia.
Qed.

Lemma quiet_tail client txid current polls k :
  quiet client txid current polls (S k) ->
  quiet client txid (current + 1) (S polls) k.
Proof.
  intros Hq i Hi. specialize (Hq (S i) ltac:(lia)).
  replace (S polls + i)%nat with (polls + S i)%nat by lia.
  replace (current + 1 + Z.of_nat i) with (current + Z.of_nat (S i)) by lia.
  exact Hq.
Qed.

(** Polls that find the transaction pending only move the loop on. *)
Lemma wait_loop_quiet client txid start timeout : forall k current polls,
  quiet client txid current polls k ->
  current + Z.of_nat k <= start + timeout ->
  wait_loop client txid start timeout current polls
  = wait_loop client txid start timeout (current + Z.of_nat k) (polls + k).
Proof.
  induction k as [|k IH]; intros current polls Hq Hk.
  - f_equal; lia.
  - rewrite wait_loop_unfold.
    assert (Hlt : (current <? start + timeout) = true) by (apply Z.ltb_lt; lia).
    rewrite Hlt.
    destruct (Hq 0%nat ltac:(lia)) as [(p & Hp & Hconf & Herr) Hblock].
    rewrite Nat.add_0_r in Hp. rewrite Z.add_0_r in Hblock.
    rewrite Hp. apply Z.ltb_ge in Hconf. rewrite Hconf, Herr. cbn [getitem truthy String.eqb negb].
    rewrite Hblock.
    rewrite (IH (current + 1) (S polls) (quiet_tail _ _ _ _ _ Hq)) by lia.
    f_equal; lia.
Qed.

Lemma pool_error_message_not_timeout err timeout :
  pool_error_message err <> timeout_message timeout.
Proof. unfold pool_error_message, timeout_message. cbn. discriminate. Qed.

(** A poll that the client fails to answer ends the wait with the bare
    [return], whatever the failure. *)
Lemma wait_for_confirmation_swallows client txid timeout last e :
  status_last_round client = Ok last -> 0 < timeout ->
  pending_transaction_info client txid 0 = Raise e ->
  wait_for_confirmation client txid timeout = (Ok None, 1%nat).
Proof.
  intros Hs Ht Hp. unfold wait_for_confirmation. rewrite Hs, wait_loop_unfold.
  assert (Hlt : (last + 1 <? last + 1 + timeout) = true) by (apply Z.ltb_lt; lia).
  rewrite Hlt, Hp. reflexivity.
Qed.

(** ** wait_for_confirmation: claims *)

(** C2: a failure of the node while polling does not reach the caller:
    [wait_for_confirmation] catches it and returns None, a result that is
    not a failure. *)
Theorem wait_for_confirmation_hides_client_error :
  pending_transaction_info failing_client "TXID" 0
    = Raise (ClientError "Network request error")
  /\ wait_for_confirmation failing_client "TXID" 5 = (Ok None, 1%nat).
Proof. split; reflexivity. Qed.

(** X29: given that [status()] answers, [wait_for_confirmation] polls at
    most [timeout] times. While the polls answer with a record that finds
    the transaction pending it goes on; the first poll that reports a
    confirmed round above 0 makes it return that record, the first that
    reports a pool error makes it raise the pool-error exception, and when
    all [timeout] polls answered and found the transaction pending it
    raises the timeout exception, whose message differs from that of every
    pool error. *)
Theorem wait_for_confirmation_outcomes client txid timeout last :
  status_last_round client = Ok last ->
  Z.of_nat (snd (wait_for_confirmation client txid timeout)) <= Z.max 0 timeout
  /\ (forall k p,
        Z.of_nat k < timeout -> quiet client txid (last + 1) 0 k ->
        pending_transaction_info client txid k = Ok p ->
        0 < get (confirmed_round p) 0 ->
        wait_for_confirmation client txid timeout = (Ok (Some p), S k))
  /\ (forall k p err,
        Z.of_nat k < timeout -> quiet client txid (last + 1) 0 k ->
        pending_transaction_info client txid k = Ok p ->
        get (confirmed_round p) 0 <= 0 ->
        pool_error p = Some err -> err <> "" ->
        wait_for_confirmation client txid timeout
        = (Raise (Exception (pool_error_message err)), S k))
  /\ (quiet client txid (last + 1) 0 (Z.to_nat timeout) ->
      wait_for_confirmation client txid timeout
      = (Raise (Exception (timeout_message timeout)), Z.to_nat timeout))
  /\ (forall err, pool_error_message err <> timeout_message timeout).
Proof.
  intros Hs. unfold wait_for_confirmation. rewrite Hs.
  split; [|split; [|split; [|split]]].
  - pose proof (wait_loop_polls_bound client txid (last + 1) timeout _ (last + 1) 0 eq_refl).
    lia.
  - intros k p Hk Hq Hp Hconf.
    rewrite (wait_loop_quiet _ _ _ _ k _ _ Hq) by lia.
    rewrite wait_loop_unfold.
    assert (Hlt : (last + 1 + Z.of_nat k <? last + 1 + timeout) = true)
      by (apply Z.ltb_lt; lia).
    rewrite Hlt. cbn [Nat.add]. rewrite Hp.
    apply Z.ltb_lt in Hconf. rewrite Hconf. reflexivity.
  - intros k p err Hk Hq Hp Hconf Herr Hne.
    rewrite (wait_loop_quiet _ _ _ _ k _ _ Hq) by lia.
    rewrite wait_loop_unfold.
    assert (Hlt : (last + 1 + Z.of_nat k <? last + 1 + timeout) = true)
      by (apply Z.ltb_lt; lia).
    rewrite Hlt. cbn [Nat.add]. rewrite Hp.
    apply Z.ltb_ge in Hconf. rewrite Hconf, Herr. cbn [getitem].
    assert (Htruthy : truthy err = true).
    { unfold truthy. apply negb_true_iff, String.eqb_neq, Hne. }
    rewrite Htruthy. reflexivity.
  - intros Hq.
    destruct (Z.le_gt_cases 0 timeout) as [Hpos|Hneg].
    + rewrite (wait_loop_quiet _ _ _ _ _ _ _ Hq) by lia.
      rewrite wait_loop_unfold.
      assert (Hge : (last + 1 + Z.of_nat (Z.to_nat timeout) <? last + 1 + timeout) = false)
        by (apply Z.ltb_ge; lia).
      rewrite Hge. reflexivity.
    + rewrite wait_loop_unfold.
      assert (Hge : (last + 1 <? last + 1 + timeout) = false) by (apply Z.ltb_ge; lia).
      rewrite Hge. replace (Z.to_nat timeout) with 0%nat by lia. reflexivity.
  - intros err. apply pool_error_message_not_timeout.
Qed.

Lemma wait_for_confirmation_outcomes_witness :
  status_last_round confirming_client = Ok 10
  /\ wait_for_confirmation confirming_client "TXID" 5
     = (Ok (Some (confirmed_record 13)), 3%nat)
  /\ wait_for_confirmation rejecting_client "TXID" 5
     = (Raise (Exception "pool error: overspend"), 2%nat)
  /\ wait_for_confirmation silent_client "TXID" 5
     = (Raise (Exception "pending tx not found in timeout rounds, timeout value = : 5"),
        5%nat).
Proof.
  split; [reflexivity|]. split; [|split].
  - destruct (wait_for_confirmation_outcomes confirming_client "TXID" 5 10 eq_refl)
      as (_ & Hconfirmed & _).
    apply (Hconfirmed 2%nat (confirmed_record 13)); [lia | | reflexivity | cbn; lia].
    intros i Hi. split; [|reflexivity].
    exists pending_record. split; [|split; [cbn; lia | reflexivity]].
    destruct i as [|[|i]]; [reflexivity | reflexivity | lia].
  - destruct (wait_for_confirmation_outcomes rejecting_client "TXID" 5 10 eq_refl)
      as (_ & _ & Hrejected & _).
    apply (Hrejected 1%nat (rejected_record "overspend") "overspend");
      [lia | | reflexivity | cbn; lia | reflexivity | discriminate].
    intros i Hi. split; [|reflexivity].
    exists pending_record. split; [|split; [cbn; lia | reflexivity]].
    destruct i as [|i]; [reflexivity | lia].
  - destruct (wait_for_confirmation_outcomes silent_client "TXID" 5 10 eq_refl)
      as (_ & _ & _ & Htimeout & _).
    apply Htimeout.
    intros i Hi. split; [|reflexivity].
    exists pending_record. split; [reflexivity|split; [cbn; lia | reflexivity]].
Defined.

End ClientFacts.

(** ** The donation escrow: evaluation *)
Module DonationFacts.
Import Teal Donation TealFacts.

Lemma donation_escrow_eval benefactor ctx m :
  donation_escrow benefactor ctx m
  = Value (of_bool ((TxnType_value (type_enum ctx) =? 1)
                    && String.eqb (receiver ctx) benefactor
                    && (group_size ctx =? 1))) m.
Proof.
  unfold donation_escrow. teal_unfold.
  destruct (TxnType_value (type_enum ctx) =? TxnType_value Payment) eqn:Hty;
    change (TxnType_value Payment) with 1 in Hty; rewrite Hty;
    destruct (String.eqb (receiver ctx) benefactor);
    destruct (group_size ctx =? 1); reflexivity.
Qed.

Lemma lsig_approves_donation benefactor ctx :
  lsig_approves (donation_escrow benefactor) ctx
  = (TxnType_value (type_enum ctx) =? 1)
    && String.eqb (receiver ctx) benefactor
    && (group_size ctx =? 1).
Proof.
  unfold lsig_approves. rewrite donation_escrow_eval.
  destruct (_ && _ && _); reflexivity.
Qed.

(** ** The donation escrow: claims *)

(** C4: the escrow approves a transaction exactly when it is a payment,
    its receiver is the embedded benefactor and its group has size 1; so
    it rejects any other receiver, and any group of more than one
    transaction whatever the receiver. *)
Theorem donation_escrow_approves_iff benefactor ctx :
  (lsig_approves (donation_escrow benefactor) ctx = true <->
   type_enum ctx = Payment /\ receiver ctx = benefactor /\ group_size ctx = 1)
  /\ (receiver ctx <> benefactor ->
      lsig_approves (donation_escrow benefactor) ctx = false)
  /\ (1 < group_size ctx ->
      lsig_approves (donation_escrow benefactor) ctx = false).
Proof.
  rewrite lsig_approves_donation.
  assert (Hty : (TxnType_value (type_enum ctx) =? 1) = true <-> type_enum ctx = Payment).
  { rewrite Z.eqb_eq. destruct (type_enum ctx); cbn; split; intros H;
      (reflexivity || discriminate H || lia). }
  split; [|split].
  - rewrite !andb_true_iff, Hty, String.eqb_eq, Z.eqb_eq. tauto.
  - intros Hne. apply String.eqb_neq in Hne. rewrite Hne, andb_false_r. reflexivity.
  - intros Hgs. assert (Hne : (group_size ctx =? 1) = false) by (apply Z.eqb_neq; lia).
    rewrite Hne, andb_false_r. reflexivity.
Qed.

(** The withdrawal of the script, and two that the escrow refuses. *)
Example donation_withdrawals :
  lsig_approves (donation_escrow receiver_public_key)
    (payment_txn receiver_public_key 1) = true
  /\ lsig_approves (donation_escrow receiver_public_key)
       (payment_txn "SOMEONE" 1) = false
  /\ lsig_approves (donation_escrow receiver_public_key)
       (payment_txn receiver_public_key 2) = false.
Proof. repeat split. Qed.

End DonationFacts.

(** ** The state formatters *)
Module StateFormatFacts.
Import Py StateFormat.
Local Open Scope py_scope.

Example reference_codecs :
  base64_b64decode "Q291bnQ=" = Ok "Count"
  /\ base64_b64decode "dm90ZWQ=" = Ok "voted"
  /\ base64_b64decode "Q291bnQ" = Raise BinasciiError
  /\ bind (base64_b64decode "w6k=") bytes_decode_utf8 = Ok "é"
  /\ bind (base64_b64decode "/w==") bytes_decode_utf8 = Raise UnicodeDecodeError.
Proof. repeat split. Qed.

Lemma for_each_app {A S} (body : S -> A -> result S) pre post acc :
  for_each body (pre ++ post)%list acc
  = let? acc' := for_each body pre acc in for_each body post acc'.
Proof.
  revert acc. induction pre as [|item pre IH]; intros acc; [reflexivity|].
  cbn [app for_each]. destruct (body acc item) as [acc'|e]; cbn [bind]; [apply IH | reflexivity].
Qed.

Section Codecs.
Variable b64decode : string -> result string.
Variable utf8_decode : string -> result string.

Abbreviation format_item := (format_item b64decode utf8_decode).
Abbreviation format_state := (format_state b64decode utf8_decode).
Abbreviation formatted_key_of := (formatted_key_of b64decode utf8_decode).
Abbreviation global_state_item := (global_state_item b64decode).
Abbreviation get_app_global_state := (get_app_global_state b64decode).

Lemma format_item_start formatted item k :
  formatted_key_of item = Ok k ->
  format_item formatted item =
    if type (value item) =? 1 then
      let? formatted_value :=
        (if String.eqb k "voted" then
           let? raw := getitem "bytes" (bytes (value item)) in
           let? decoded := b64decode raw in
           utf8_decode decoded
         else getitem "bytes" (bytes (value item))) in
      Ok (<[k := PyStr formatted_value]> formatted)
    else
      let? n := getitem "uint" (uint (value item)) in
      Ok (<[k := PyInt n]> formatted).
Proof.
  unfold StateFormat.formatted_key_of, StateFormat.format_item. intros Hk.
  destruct (b64decode (key item)) as [kb|e]; cbn [bind] in *; [|discriminate].
  rewrite Hk. reflexivity.
Qed.

(** An entry writes under its own decoded key and nowhere else. *)
Lemma format_item_writes formatted item formatted' :
  format_item formatted item = Ok formatted' ->
  exists k v, formatted_key_of item = Ok k /\ formatted' = <[k := v]> formatted.
Proof.
  intros H. destruct (formatted_key_of item) as [k|e] eqn:Hk.
  - rewrite (format_item_start _ _ _ Hk) in H.
    destruct (type (value item) =? 1).
    + match type of H with bind ?r _ = _ => destruct r as [fv|e] end;
        cbn [bind] in H; [|discriminate].
      injection H as <-. eauto.
    + destruct (getitem "uint" (uint (value item))) as [n|e]; cbn [bind] in H; [|discriminate].
      injection H as <-. eauto.
  - exfalso. unfold StateFormat.formatted_key_of, StateFormat.format_item in *.
    destruct (b64decode (key item)) as [kb|e']; cbn [bind] in *; [|discriminate].
    rewrite Hk in H. discriminate.
Qed.

Lemma for_each_format_item_frame k : forall post formatted m,
  (forall later, In later post -> formatted_key_of later <> Ok k) ->
  for_each format_item post formatted = Ok m ->
  m !! k = formatted !! k.
Proof.
  induction post as [|item post IH]; intros formatted m Hlater H.
  - injection H as <-. reflexivity.
  - cbn [for_each] in H.
    destruct (format_item formatted item) as [formatted'|e] eqn:Hitem;
      cbn [bind] in H; [|discriminate].
    destruct (format_item_writes _ _ _ Hitem) as (k' & v & Hk' & ->).
    rewrite (IH _ _ (fun later Hin => Hlater later (or_intror Hin)) H).
    apply lookup_insert_ne. intros ->. exact (Hlater item (or_introl eq_refl) Hk').
Qed.

(** Once its key is decoded, an entry whose discriminant is not 1 is
    stored as its [uint] field, whatever the discriminant. *)
Lemma format_item_not_bytes formatted item k n :
  formatted_key_of item = Ok k -> type (value item) <> 1 ->
  uint (value item) = Some n ->
  format_item formatted item = Ok (<[k := PyInt n]> formatted).
Proof.
  intros Hk Hty Hn. rewrite (format_item_start _ _ _ Hk).
  apply Z.eqb_neq in Hty. rewrite Hty, Hn. reflexivity.
Qed.

(** [get_app_global_state] refuses such an entry. *)
Lemma global_state_item_unknown_type state pair k :
  b64decode (key pair) = Ok k ->
  type (value pair) <> 1 -> type (value pair) <> 2 ->
  global_state_item state pair
  = Raise (Exception (unexpected_type_message (type (value pair)))).
Proof.
  intros Hk H1 H2. unfold StateFormat.global_state_item. rewrite Hk. cbn [bind].
  apply Z.eqb_neq in H1, H2. rewrite H1, H2. reflexivity.
Qed.

Lemma get_app_global_state_unknown_type pre pair post state k :
  for_each global_state_item pre ∅ = Ok state ->
  b64decode (key pair) = Ok k ->
  type (value pair) <> 1 -> type (value pair) <> 2 ->
  get_app_global_state (pre ++ pair :: post)
  = Raise (Exception (unexpected_type_message (type (value pair)))).
Proof.
  intros Hpre Hk H1 H2. unfold StateFormat.get_app_global_state.
  rewrite for_each_app, Hpre. cbn [bind for_each].
  rewrite (global_state_item_unknown_type _ _ _ Hk H1 H2). reflexivity.
Qed.

(** ** The state formatter: claims *)

(** C10: in [format_state], an entry with discriminant 1 whose key
    decodes to [k] is stored as its [bytes] field unchanged, still in
    base64, when [k] is not "voted"; when [k] is "voted" the field is
    base64-decoded and UTF-8-decoded first. The returned mapping holds
    that value under [k] unless a later entry has the same key. *)
Theorem format_state_bytes_entry item k raw :
  type (value item) = 1 -> bytes (value item) = Some raw ->
  formatted_key_of item = Ok k ->
  (forall formatted, k <> "voted" ->
     format_item formatted item = Ok (<[k := PyStr raw]> formatted))
  /\ (forall formatted, k = "voted" ->
        format_item formatted item
        = let? decoded := b64decode raw in
          let? text := utf8_decode decoded in
          Ok (<[k := PyStr text]> formatted))
  /\ (forall pre post m,
        (forall later, In later post -> formatted_key_of later <> Ok k) ->
        format_state (pre ++ item :: post) = Ok m ->
        (k <> "voted" -> m !! k = Some (PyStr raw))
        /\ (k = "voted" ->
            exists decoded text,
              b64decode raw = Ok decoded /\ utf8_decode decoded = Ok text
              /\ m !! k = Some (PyStr text))).
Proof.
  intros Hty Hraw Hk.
  assert (Hother : forall formatted, k <> "voted" ->
            format_item formatted item = Ok (<[k := PyStr raw]> formatted)).
  { intros formatted Hne. rewrite (format_item_start _ _ _ Hk), Hty, Hraw.
    apply String.eqb_neq in Hne. rewrite Hne. reflexivity. }
  assert (Hvoted : forall formatted, k = "voted" ->
            format_item formatted item
            = let? decoded := b64decode raw in
              let? text := utf8_decode decoded in
              Ok (<[k := PyStr text]> formatted)).
  { intros formatted ->. rewrite (format_item_start _ _ _ Hk), Hty, Hraw.
    cbn [Z.eqb Pos.eqb String.eqb Ascii.eqb Bool.eqb getitem bind].
    destruct (b64decode raw) as [decoded|e]; cbn [bind]; [|reflexivity].
    destruct (utf8_decode decoded); reflexivity. }
  split; [exact Hother|]. split; [exact Hvoted|].
  intros pre post m Hlater Hm. unfold StateFormat.format_state in Hm.
  rewrite for_each_app in Hm.
  destruct (for_each format_item pre ∅) as [formatted|e]; cbn [bind for_each] in Hm;
    [|discriminate].
  split.
  - intros Hne. rewrite (Hother formatted Hne) in Hm. cbn [bind] in Hm.
    rewrite (for_each_format_item_frame k _ _ _ Hlater Hm). apply lookup_insert_eq.
  - intros Heq. rewrite (Hvoted formatted Heq) in Hm.
    destruct (b64decode raw) as [decoded|e] eqn:Hdecoded; cbn [bind] in Hm; [|discriminate].
    destruct (utf8_decode decoded) as [text|e] eqn:Htext; cbn [bind] in Hm; [|discriminate].
    exists decoded, text. split; [reflexivity|]. split; [exact Htext|].
    rewrite (for_each_format_item_frame k _ _ _ Hlater Hm). apply lookup_insert_eq.
Qed.

End Codecs.

Lemma format_state_bytes_entry_witness :
  formatted_key_of base64_b64decode bytes_decode_utf8 creator_entry = Ok "Creator"
  /\ format_item base64_b64decode bytes_decode_utf8 ∅ creator_entry
     = Ok (<["Creator" := PyStr "YWJj"]> ∅)
  /\ formatted_key_of base64_b64decode bytes_decode_utf8 voted_entry = Ok "voted"
  /\ format_item base64_b64decode bytes_decode_utf8 ∅ voted_entry
     = Ok (<["voted" := PyStr "yes"]> ∅)
  /\ exists m,
       format_state base64_b64decode bytes_decode_utf8 sample_state = Ok m
       /\ m !! "voted" = Some (PyStr "yes").
Proof.
  split; [reflexivity|]. split.
  { apply (format_state_bytes_entry base64_b64decode bytes_decode_utf8
             creator_entry "Creator" "YWJj" eq_refl eq_refl eq_refl).
    discriminate. }
  split; [reflexivity|].
  destruct (format_state_bytes_entry base64_b64decode bytes_decode_utf8
              voted_entry "voted" "eWVz" eq_refl eq_refl eq_refl)
    as (_ & Hvoted & Hstate).
  split.
  { rewrite (Hvoted ∅ eq_refl). reflexivity. }
  eexists. split; [vm_compute; reflexivity|].
  destruct (Hstate [count_entry] [creator_entry] _
              ltac:(intros later [<-|[]]; discriminate)
              ltac:(vm_compute; reflexivity)) as (_ & Hm).
  destruct (Hm eq_refl) as (decoded & text & Hd & Ht & Hlookup).
  injection Hd as <-. injection Ht as <-. exact Hlookup.
Defined.

Example format_state_sample :
  format_state base64_b64decode bytes_decode_utf8 sample_state
  = Ok (<["Creator" := PyStr "YWJj"]>
          (<["voted" := PyStr "yes"]> (<["Count" := PyInt 3]> ∅))).
Proof. vm_compute. reflexivity. Qed.

(** C3: [format_state] does not fail on a discriminant that is neither 1
    nor 2: it stores the entry's [uint] field as if the discriminant were
    2. On the same entry [get_app_global_state] raises the unexpected-type
    exception. *)
Theorem format_state_accepts_unknown_type :
  format_state base64_b64decode bytes_decode_utf8 unknown_type_state
  = Ok {[ "Count" := PyInt 7 ]}
  /\ get_app_global_state base64_b64decode unknown_type_state
     = Raise (Exception "Unexpected state type: 3").
Proof. split; vm_compute; reflexivity. Qed.

End StateFormatFacts.

(** ** The counter: further properties of the approval program *)
Module CounterCallsFacts.
Import Teal Counter CounterCalls TealFacts CounterFacts.

(** The approval program writes no key but "Count". *)
Lemma call_other_key ctx g k :
  k <> "Count" -> call ctx g !! k = g !! k.
Proof.
  intros Hk. unfold call, apply_call. rewrite approval_program_dispatch.
  destruct (application_id ctx =? 0).
  { rewrite on_creation_eval. cbn. apply lookup_insert_ne. congruence. }
  destruct (on_completion ctx); try reflexivity.
  rewrite handle_noop_dispatch.
  destruct (application_args ctx) as [|a rest]; [reflexivity|].
  destruct (_ && _).
  { rewrite add_eval. cbn [fresh globals].
    destruct (default (VUint 0) (g !! "Count")) as [v|b]; [|reflexivity].
    destruct (v + 1 <=? uint64_max); [|reflexivity].
    cbn. apply lookup_insert_ne. congruence. }
  destruct (_ && _); [|reflexivity].
  rewrite deduct_eval. cbn [fresh globals].
  destruct (default (VUint 0) (g !! "Count")) as [v|b]; [|reflexivity].
  destruct (0 <? v); [|reflexivity].
  destruct (1 <=? v); [|reflexivity].
  cbn. apply lookup_insert_ne. congruence.
Qed.

(** X1: a call with application id 0 (the creation) on which the approval
    program runs (any on-completion action but ClearState) is approved and
    sets the counter to 0, whatever its arguments and the size of its
    group; on the empty state of a new application the result is exactly
    "Count" = 0. *)
Theorem creation_always_approved ctx g :
  application_id ctx = 0 -> on_completion ctx <> ClearState ->
  apply_call approval_program ctx g = (true, <["Count" := VUint 0]> g)
  /\ apply_call approval_program ctx ∅ = (true, {[ "Count" := VUint 0 ]}).
Proof.
  intros Hid _. unfold apply_call. rewrite !approval_program_dispatch, Hid.
  split; reflexivity.
Qed.

Lemma creation_always_approved_witness :
  application_id grouped_create_txn = 0
  /\ on_completion grouped_create_txn <> ClearState
  /\ apply_call approval_program grouped_create_txn ∅ = (true, {[ "Count" := VUint 0 ]}).
Proof.
  split; [reflexivity|]. split; [cbn; discriminate|].
  apply (creation_always_approved grouped_create_txn ∅); [reflexivity | cbn; discriminate].
Defined.

(** X2: a solo Add or Deduct call on a counter holding [v] is approved and
    leaves the state with "Count" set to v+1, respectively max(v-1, 0), and
    every other key as it was; an Add needs v below 2^64 - 1. *)
Theorem solo_call_step ctx g op v :
  is_solo_call (op_arg op) ctx -> count_of g = Some (VUint v) -> 0 <= v ->
  (op = OpAdd -> v < uint64_max) ->
  apply_call approval_program ctx g = (true, <["Count" := VUint (step_spec v op)]> g).
Proof.
  intros Hsolo Hv H0 Hmax. unfold count_of in Hv. destruct op; cbn [op_arg step_spec] in *.
  - rewrite (call_Add _ _ Hsolo), Hv. cbn [default from_option id].
    assert (Hle : (v + 1 <=? uint64_max) = true)
      by (apply Z.leb_le; specialize (Hmax eq_refl); lia).
    rewrite Hle. reflexivity.
  - rewrite (call_Deduct _ _ Hsolo), Hv. cbn [default from_option id].
    destruct (0 <? v) eqn:Hpos.
    + apply Z.ltb_lt in Hpos. rewrite Z.max_l by lia. reflexivity.
    + apply Z.ltb_ge in Hpos. assert (v = 0) as -> by lia.
      cbn. rewrite insert_id by exact Hv. reflexivity.
Qed.

Lemma solo_call_step_witness :
  is_solo_call (op_arg OpDeduct) (op_txn 7 OpDeduct)
  /\ count_of annotated_counter = Some (VUint 4)
  /\ apply_call approval_program (op_txn 7 OpDeduct) annotated_counter
     = (true, <["Count" := VUint 3]> annotated_counter).
Proof.
  assert (Hsolo : is_solo_call (op_arg OpDeduct) (op_txn 7 OpDeduct))
    by (repeat split; cbn; lia).
  split; [exact Hsolo|]. split; [reflexivity|].
  apply (solo_call_step (op_txn 7 OpDeduct) annotated_counter OpDeduct 4 Hsolo);
    [reflexivity | lia | discriminate].
Defined.

(** X3: a solo Add call on a counter that holds 2^64 - 1 is rejected (the
    addition overflows) and the state is unchanged. *)
Theorem add_overflow_rejected ctx g :
  is_solo_call "Add" ctx -> count_of g = Some (VUint uint64_max) ->
  apply_call approval_program ctx g = (false, g).
Proof.
  intros Hsolo Hv. unfold count_of in Hv. rewrite (call_Add _ _ Hsolo), Hv. reflexivity.
Qed.

Lemma add_overflow_rejected_witness :
  is_solo_call "Add" (op_txn 7 OpAdd)
  /\ count_of full_counter = Some (VUint uint64_max)
  /\ apply_call approval_program (op_txn 7 OpAdd) full_counter = (false, full_counter).
Proof.
  assert (Hsolo : is_solo_call "Add" (op_txn 7 OpAdd)) by (repeat split; cbn; lia).
  split; [exact Hsolo|]. split; [reflexivity|].
  apply (add_overflow_rejected (op_txn 7 OpAdd) full_counter Hsolo). reflexivity.
Defined.

(** X4: a NoOp call of an existing application whose first argument is
    neither "Add" nor "Deduct" (for instance "add"), or which has no
    argument, is rejected and the state is unchanged. *)
Theorem unknown_operation_rejected ctx g :
  application_id ctx <> 0 -> on_completion ctx = NoOp ->
  hd_error (application_args ctx) <> Some "Add" ->
  hd_error (application_args ctx) <> Some "Deduct" ->
  apply_call approval_program ctx g = (false, g).
Proof.
  intros Hid Hoc Hadd Hdeduct. unfold apply_call.
  rewrite approval_program_dispatch, Hoc. apply Z.eqb_neq in Hid. rewrite Hid.
  rewrite handle_noop_dispatch.
  destruct (application_args ctx) as [|a rest]; [reflexivity|].
  cbn [hd_error] in Hadd, Hdeduct.
  assert (Ha : String.eqb a "Add" = false) by (apply String.eqb_neq; congruence).
  assert (Hd : String.eqb a "Deduct" = false) by (apply String.eqb_neq; congruence).
  rewrite Ha, Hd, !andb_false_r. reflexivity.
Qed.

Lemma unknown_operation_rejected_witness :
  application_id lowercase_add_call <> 0
  /\ on_completion lowercase_add_call = NoOp
  /\ apply_call approval_program lowercase_add_call created = (false, created).
Proof.
  split; [cbn; lia|]. split; [reflexivity|].
  apply (unknown_operation_rejected lowercase_add_call created);
    [cbn; lia | reflexivity | cbn; discriminate | cbn; discriminate].
Defined.

(** X5: whatever the call, approved or not, the approval program changes
    no key of the global state other than "Count". *)
Theorem only_count_is_written ctx g k :
  k <> "Count" -> snd (apply_call approval_program ctx g) !! k = g !! k.
Proof. intros Hk. exact (call_other_key ctx g k Hk). Qed.

Lemma only_count_is_written_witness :
  "Note" <> "Count"
  /\ snd (apply_call approval_program (op_txn 7 OpAdd) annotated_counter) !! "Note"
     = Some (VBytes "hello").
Proof.
  split; [discriminate|].
  rewrite (only_count_is_written (op_txn 7 OpAdd) annotated_counter "Note");
    [reflexivity | discriminate].
Defined.

(** X6: on a counter holding [v], a call on which the approval program
    runs (any on-completion action but ClearState) is approved exactly when
    it is a creation (application id 0), or completes with NoOp, is alone
    in its group and its first argument is "Deduct", or "Add" with v below
    2^64 - 1. *)
Theorem approved_iff ctx g v :
  count_of g = Some (VUint v) -> on_completion ctx <> ClearState ->
  approved ctx g = true <->
  application_id ctx = 0
  \/ (on_completion ctx = NoOp /\ group_size ctx = 1
      /\ (hd_error (application_args ctx) = Some "Deduct"
          \/ (hd_error (application_args ctx) = Some "Add" /\ v < uint64_max))).
Proof.
  intros Hv _. unfold count_of in Hv. unfold approved, apply_call.
  rewrite approval_program_dispatch.
  destruct (application_id ctx =? 0) eqn:Hid.
  { apply Z.eqb_eq in Hid. rewrite on_creation_eval. cbn. tauto. }
  apply Z.eqb_neq in Hid.
  destruct (on_completion ctx) eqn:Hoc;
    try (cbn; split; [discriminate | intros [H|(H & _)]; [contradiction | discriminate]]).
  rewrite handle_noop_dispatch.
  destruct (application_args ctx) as [|a rest]; cbn [hd_error].
  { cbn. split; [discriminate|].
    intros [H|(_ & _ & [H|(H & _)])]; [contradiction | discriminate | discriminate]. }
  destruct (group_size ctx =? 1) eqn:Hgs; cbn [andb].
  2:{ apply Z.eqb_neq in Hgs. cbn. split; [discriminate|].
      intros [H|(_ & H & _)]; contradiction. }
  apply Z.eqb_eq in Hgs.
  destruct (String.eqb a "Add") eqn:Ha.
  { apply String.eqb_eq in Ha. subst a. rewrite add_eval. cbn [fresh globals].
    rewrite Hv. cbn [default from_option id].
    destruct (v + 1 <=? uint64_max) eqn:Hle.
    - apply Z.leb_le in Hle. cbn. split; [|reflexivity]. intros _. right.
      repeat split; try assumption. right. split; [reflexivity | lia].
    - apply Z.leb_gt in Hle. cbn. split; [discriminate|].
      intros [H|(_ & _ & [H|(_ & H)])]; [contradiction | discriminate | lia]. }
  apply String.eqb_neq in Ha.
  destruct (String.eqb a "Deduct") eqn:Hd.
  { apply String.eqb_eq in Hd. subst a. rewrite deduct_eval. cbn [fresh globals].
    rewrite Hv. cbn [default from_option id].
    destruct (0 <? v) eqn:Hpos.
    - apply Z.ltb_lt in Hpos.
      assert (H1 : (1 <=? v) = true) by (apply Z.leb_le; lia).
      rewrite H1. cbn. split; [|reflexivity]. intros _. right.
      repeat split; try assumption. left. reflexivity.
    - cbn. split; [|reflexivity]. intros _. right.
      repeat split; try assumption. left. reflexivity. }
  apply String.eqb_neq in Hd. cbn. split; [discriminate|].
  intros [H|(_ & _ & [H|(H & _)])]; [contradiction | congruence | congruence].
Qed.

Lemma approved_iff_witness :
  count_of created = Some (VUint 0)
  /\ on_completion (op_txn 7 OpDeduct) <> ClearState
  /\ on_completion optin_call <> ClearState
  /\ approved (op_txn 7 OpDeduct) created = true
  /\ approved optin_call created = false.
Proof.
  split; [reflexivity|]. split; [cbn; discriminate|]. split; [cbn; discriminate|].
  pose proof (approved_iff (op_txn 7 OpDeduct) created 0 eq_refl
                ltac:(cbn; discriminate)) as Hdeduct.
  pose proof (approved_iff optin_call created 0 eq_refl
                ltac:(cbn; discriminate)) as Hoptin.
  split.
  - apply Hdeduct. right. repeat split. left. reflexivity.
  - destruct (approved optin_call created) eqn:Happ; [|reflexivity].
    destruct (proj1 Hoptin eq_refl) as [H|(H & _)]; discriminate.
Defined.

(** X7: whatever calls are made on the application (grouped or not, with
    any on-completion action and any arguments, further creations
    included), a counter that holds an integer between 0 and 2^64 - 1
    still does afterwards. *)
Theorem counter_ok_under_any_calls ctxs g :
  counter_ok g -> counter_ok (run_calls ctxs g).
Proof.
  revert g. induction ctxs as [|ctx ctxs IH]; intros g Hg; [exact Hg|].
  cbn. apply IH, call_preserves_counter_ok, Hg.
Qed.

Lemma counter_ok_under_any_calls_witness :
  counter_ok created
  /\ counter_ok (run_calls [op_txn 7 OpDeduct; optin_call; lowercase_add_call;
                            grouped_create_txn; op_txn 7 OpAdd] created).
Proof.
  split; [exact created_counter_ok|].
  apply (counter_ok_under_any_calls
           [op_txn 7 OpDeduct; optin_call; lowercase_add_call;
            grouped_create_txn; op_txn 7 OpAdd] created created_counter_ok).
Defined.

(** X8: a solo Add followed by a solo Deduct gives back the very state they
    started from, when the counter was below 2^64 - 1. *)
Theorem add_then_deduct_restores app_id g v :
  app_id <> 0 -> count_of g = Some (VUint v) -> 0 <= v < uint64_max ->
  run_ops app_id [OpAdd; OpDeduct] g = g.
Proof.
  intros Hid Hv Hr. unfold count_of in Hv. cbn [run_ops fold_left]. unfold call.
  rewrite (call_Add _ _ (op_txn_solo app_id OpAdd Hid)), Hv. cbn [default from_option id].
  assert (Hle : (v + 1 <=? uint64_max) = true) by (apply Z.leb_le; lia).
  rewrite Hle. cbn [snd].
  rewrite (call_Deduct _ _ (op_txn_solo app_id OpDeduct Hid)), lookup_insert_eq.
  cbn [default from_option id].
  assert (Hpos : (0 <? v + 1) = true) by (apply Z.ltb_lt; lia).
  rewrite Hpos. cbn [snd]. rewrite insert_insert_eq.
  replace (v + 1 - 1) with v by lia. apply insert_id, Hv.
Qed.

Lemma add_then_deduct_restores_witness :
  7 <> 0 /\ count_of annotated_counter = Some (VUint 4) /\ 0 <= 4 < uint64_max
  /\ run_ops 7 [OpAdd; OpDeduct] annotated_counter = annotated_counter.
Proof.
  split; [lia|]. split; [reflexivity|]. split; [unfold uint64_max; lia|].
  apply (add_then_deduct_restores 7 annotated_counter 4);
    [lia | reflexivity | unfold uint64_max; lia].
Defined.

End CounterCallsFacts.

(** ** wait_for_confirmation: what its results mean *)
Module ClientCasesFacts.
Import Py Client ClientCases ClientFacts.

(** A record leaves the loop only from a poll that reported it confirmed;
    None leaves it only from a poll that raised. *)
Lemma wait_loop_success client txid start timeout : forall n current polls r m,
  Z.to_nat (start + timeout - current) = n ->
  wait_loop client txid start timeout current polls = (Ok r, m) ->
  exists k, m = S k /\ (polls <= k)%nat
    /\ current + Z.of_nat (k - polls) < start + timeout
    /\ match r with
       | Some p => pending_transaction_info client txid k = Ok p
                   /\ 0 < get (confirmed_round p) 0
       | None => exists e, pending_transaction_info client txid k = Raise e
       end.
Proof.
  induction n as [|n IH]; intros current polls r m Hn; rewrite wait_loop_unfold.
  - assert (Hge : (current <? start + timeout) = false) by (apply Z.ltb_ge; lia).
    rewrite Hge. discriminate.
  - destruct (current <? start + timeout) eqn:Hlt; [|discriminate].
    apply Z.ltb_lt in Hlt.
    destruct (pending_transaction_info client txid polls) as [p|e] eqn:Hp.
    2:{ intros H. injection H as <- <-. exists polls.
        rewrite Nat.sub_diag, Z.add_0_r. repeat split; [lia | lia | eauto]. }
    destruct (0 <? get (confirmed_round p) 0) eqn:Hconf.
    { intros H. injection H as <- <-. exists polls. apply Z.ltb_lt in Hconf.
      rewrite Nat.sub_diag, Z.add_0_r. repeat split; [lia | lia | exact Hp | exact Hconf]. }
    destruct (getitem "pool-error" (pool_error p)) as [err|e]; [|discriminate].
    destruct (truthy err); [discriminate|].
    destruct (status_after_block client current); [|discriminate].
    intros H. destruct (IH (current + 1) (S polls) r m ltac:(lia) H)
      as (k & -> & Hk & Hround & Hr).
    exists k. repeat split; [lia | | exact Hr].
    replace (Z.of_nat (k - polls)) with (1 + Z.of_nat (k - S polls)) by lia. lia.
Qed.

(** X9: when [wait_for_confirmation] returns a record, that record is the
    answer of the last poll it made, one of the first [timeout] polls, and
    it reports a confirmed round above 0: an unconfirmed record is never
    returned. *)
Theorem returned_record_is_confirmed client txid timeout p polls :
  wait_for_confirmation client txid timeout = (Ok (Some p), polls) ->
  0 < get (confirmed_round p) 0
  /\ exists k, polls = S k /\ Z.of_nat k < timeout
       /\ pending_transaction_info client txid k = Ok p.
Proof.
  unfold wait_for_confirmation.
  destruct (status_last_round client) as [last|e]; [|discriminate].
  intros H.
  destruct (wait_loop_success _ _ _ _ _ _ _ _ _ eq_refl H)
    as (k & -> & _ & Hround & Hp & Hconf).
  split; [exact Hconf|]. exists k.
  rewrite Nat.sub_0_r in Hround. repeat split; [lia | exact Hp].
Qed.

Lemma returned_record_is_confirmed_witness :
  wait_for_confirmation confirming_client "TXID" 5
    = (Ok (Some (confirmed_record 13)), 3%nat)
  /\ 0 < get (confirmed_round (confirmed_record 13)) 0.
Proof.
  split; [reflexivity|].
  apply (returned_record_is_confirmed confirming_client "TXID" 5 (confirmed_record 13) 3).
  reflexivity.
Defined.

(** X10: [wait_for_confirmation] returns None only when the last poll it
    made, one of the first [timeout] polls, raised an exception. *)
Theorem none_only_after_failed_poll client txid timeout polls :
  wait_for_confirmation client txid timeout = (Ok None, polls) ->
  exists k e, polls = S k /\ Z.of_nat k < timeout
    /\ pending_transaction_info client txid k = Raise e.
Proof.
  unfold wait_for_confirmation.
  destruct (status_last_round client) as [last|e]; [|discriminate].
  intros H.
  destruct (wait_loop_success _ _ _ _ _ _ _ _ _ eq_refl H)
    as (k & -> & _ & Hround & e & Hp).
  exists k, e. rewrite Nat.sub_0_r in Hround. repeat split; [lia | exact Hp].
Qed.

Lemma none_only_after_failed_poll_witness :
  wait_for_confirmation failing_client "TXID" 5 = (Ok None, 1%nat)
  /\ exists k e, 1%nat = S k /\ Z.of_nat k < 5
       /\ pending_transaction_info failing_client "TXID" k = Raise e.
Proof.
  split; [reflexivity|].
  apply (none_only_after_failed_poll failing_client "TXID" 5 1). reflexivity.
Defined.

(** X11: a poll that answers with an unconfirmed record lacking the
    "pool-error" key makes [wait_for_confirmation] raise KeyError
    ('pool-error') at once. *)
Theorem missing_pool_error_key client txid timeout last k p :
  status_last_round client = Ok last ->
  Z.of_nat k < timeout -> quiet client txid (last + 1) 0 k ->
  pending_transaction_info client txid k = Ok p ->
  get (confirmed_round p) 0 <= 0 -> pool_error p = None ->
  wait_for_confirmation client txid timeout = (Raise (KeyError "pool-error"), S k).
Proof.
  intros Hs Hk Hq Hp Hconf Herr. unfold wait_for_confirmation. rewrite Hs.
  rewrite (wait_loop_quiet _ _ _ _ k _ _ Hq) by lia.
  rewrite wait_loop_unfold.
  assert (Hlt : (last + 1 + Z.of_nat k <? last + 1 + timeout) = true)
    by (apply Z.ltb_lt; lia).
  rewrite Hlt. cbn [Nat.add]. rewrite Hp.
  apply Z.ltb_ge in Hconf. rewrite Hconf, Herr. reflexivity.
Qed.

Lemma quiet_first_poll client txid round :
  pending_transaction_info client txid 0 = Ok pending_record ->
  status_after_block client round = Ok tt ->
  quiet client txid round 0 1.
Proof.
  intros Hp Hb i Hi. assert (i = 0%nat) as -> by lia.
  rewrite Z.add_0_r. split; [|exact Hb].
  exists pending_record. split; [exact Hp|]. split; [cbn; lia | reflexivity].
Qed.

Lemma missing_pool_error_key_witness :
  status_last_round keyless_client = Ok 10
  /\ pending_transaction_info keyless_client "TXID" 1 = Ok keyless_record
  /\ wait_for_confirmation keyless_client "TXID" 5 = (Raise (KeyError "pool-error"), 2%nat).
Proof.
  split; [reflexivity|]. split; [reflexivity|].
  apply (missing_pool_error_key keyless_client "TXID" 5 10 1 keyless_record);
    [reflexivity | lia | | reflexivity | cbn; lia | reflexivity].
  apply quiet_first_poll; reflexivity.
Defined.

(** X12: when the wait for the next block fails after a poll that found the
    transaction pending, [wait_for_confirmation] lets that exception
    through, without further polls. *)
Theorem block_wait_failure_propagates client txid timeout last k p e :
  status_last_round client = Ok last ->
  Z.of_nat k < timeout -> quiet client txid (last + 1) 0 k ->
  pending_transaction_info client txid k = Ok p -> pending p ->
  status_after_block client (last + 1 + Z.of_nat k) = Raise e ->
  wait_for_confirmation client txid timeout = (Raise e, S k).
Proof.
  intros Hs Hk Hq Hp (Hconf & Herr) Hblock. unfold wait_for_confirmation. rewrite Hs.
  rewrite (wait_loop_quiet _ _ _ _ k _ _ Hq) by lia.
  rewrite wait_loop_unfold.
  assert (Hlt : (last + 1 + Z.of_nat k <? last + 1 + timeout) = true)
    by (apply Z.ltb_lt; lia).
  rewrite Hlt. cbn [Nat.add]. rewrite Hp.
  apply Z.ltb_ge in Hconf. rewrite Hconf, Herr. cbn [getitem truthy String.eqb negb].
  rewrite Hblock. reflexivity.
Qed.

Lemma block_wait_failure_propagates_witness :
  status_last_round stalled_client = Ok 10
  /\ status_after_block stalled_client 12 = Raise (ClientError "Network request error")
  /\ wait_for_confirmation stalled_client "TXID" 5
     = (Raise (ClientError "Network request error"), 2%nat).
Proof.
  split; [reflexivity|]. split; [reflexivity|].
  apply (block_wait_failure_propagates stalled_client "TXID" 5 10 1 pending_record);
    [reflexivity | lia | | reflexivity | split; [cbn; lia | reflexivity] | reflexivity].
  apply quiet_first_poll; reflexivity.
Defined.

(** C5: a wait of 5 rounds whose first four polls find the transaction
    pending and whose fifth poll raises ends, after those 5 polls and
    without any confirmation, with the bare [return]: None, not the timeout
    exception. *)
Theorem wait_for_confirmation_silent_after_budget :
  (forall n, (n < 4)%nat ->
     pending_transaction_info late_failing_client "TXID" n = Ok pending_record)
  /\ pending_transaction_info late_failing_client "TXID" 4
     = Raise (ClientError "Network request error")
  /\ wait_for_confirmation late_failing_client "TXID" 5 = (Ok None, 5%nat).
Proof.
  split; [|split; reflexivity].
  intros n Hn. destruct n as [|[|[|[|n]]]]; [reflexivity .. | lia].
Qed.

End ClientCasesFacts.

(** ** The workflows *)
Module WorkflowFacts.
Import Py Client DonationClient Workflow ClientFacts ClientCasesFacts.

Lemma donation_wait_loop_unfold client txid start timeout current polls :
  donation_wait_loop client txid start timeout current polls =
    if current <? start + timeout then
      match pending_transaction_info client txid polls with
      | Raise _ => (Ok None, S polls)
      | Ok pending_txn =>
          if 0 <? get (confirmed_round pending_txn) 0
          then (Ok (Some pending_txn), S polls)
          else
            match getitem "pool-error" (pool_error pending_txn) with
            | Raise e => (Raise e, S polls)
            | Ok err =>
                if truthy err
                then (Raise (Exception (pool_error_message err)), S polls)
                else
                  match status_after_block client current with
                  | Raise e => (Raise e, S polls)
                  | Ok _ =>
                      donation_wait_loop client txid start timeout (current + 1) (S polls)
                  end
            end
      end
    else (Raise (Exception (donation_timeout_message timeout)), polls).
Proof.
  rewrite (donation_wait_loop_equation_1 client txid start timeout current polls).
  destruct (Z_lt_dec current (start + timeout)) as [Hlt|Hge]; cbn.
  - apply Z.ltb_lt in Hlt. rewrite Hlt. reflexivity.
  - apply Z.ltb_nlt in Hge. rewrite Hge. reflexivity.
Qed.

Lemma donation_wait_loop_polls_bound client txid start timeout : forall n current polls,
  Z.to_nat (start + timeout - current) = n ->
  (snd (donation_wait_loop client txid start timeout current polls) <= polls + n)%nat.
Proof.
  induction n as [|n IH]; intros current polls Hn; rewrite donation_wait_loop_unfold.
  - assert (Hge : (current <? start + timeout) = false) by (apply Z.ltb_ge; lia).
    rewrite Hge. cbn. lia.
  - destruct (current <? start + timeout); [|cbn; lia].
    destruct (pending_transaction_info client txid polls) as [p|e]; [|cbn; lia].
    destruct (0 <? get (confirmed_round p) 0); [cbn; lia|].
    destruct (getitem "pool-error" (pool_error p)) as [err|e]; [|cbn; lia].
    destruct (truthy err); [cbn; lia|].
    destruct (status_after_block client current); [|cbn; lia].
    specialize (IH (current + 1) (S polls)). lia.
Qed.

Lemma donation_wait_for_confirmation_bound client txid timeout :
  Z.of_nat (snd (donation_wait_for_confirmation client txid timeout)) <= Z.max 0 timeout.
Proof.
  unfold donation_wait_for_confirmation.
  destruct (status_last_round client) as [last|e]; [|cbn; lia].
  pose proof (donation_wait_loop_polls_bound client txid (last + 1) timeout _ (last + 1) 0
                eq_refl).
  lia.
Qed.

(** A record leaves the donation script's loop only from a poll that
    reported it confirmed. *)
Lemma donation_wait_loop_record client txid start timeout : forall n current polls p m,
  Z.to_nat (start + timeout - current) = n ->
  donation_wait_loop client txid start timeout current polls = (Ok (Some p), m) ->
  exists k, m = S k /\ (polls <= k)%nat
    /\ current + Z.of_nat (k - polls) < start + timeout
    /\ pending_transaction_info client txid k = Ok p
    /\ 0 < get (confirmed_round p) 0.
Proof.
  induction n as [|n IH]; intros current polls p m Hn; rewrite donation_wait_loop_unfold.
  - assert (Hge : (current <? start + timeout) = false) by (apply Z.ltb_ge; lia).
    rewrite Hge. discriminate.
  - destruct (current <? start + timeout) eqn:Hlt; [|discriminate].
    apply Z.ltb_lt in Hlt.
    destruct (pending_transaction_info client txid polls) as [q|e] eqn:Hq; [|discriminate].
    destruct (0 <? get (confirmed_round q) 0) eqn:Hconf.
    { intros H. injection H as <- <-. exists polls. apply Z.ltb_lt in Hconf.
      rewrite Nat.sub_diag, Z.add_0_r. repeat split; [lia | lia | exact Hq | exact Hconf]. }
    destruct (getitem "pool-error" (pool_error q)) as [err|e]; [|discriminate].
    destruct (truthy err); [discriminate|].
    destruct (status_after_block client current); [|discriminate].
    intros H. destruct (IH (current + 1) (S polls) p m ltac:(lia) H)
      as (k & -> & Hk & Hround & Hr).
    exists k. repeat split; [lia | | apply Hr | apply Hr].
    replace (Z.of_nat (k - polls)) with (1 + Z.of_nat (k - S polls)) by lia. lia.
Qed.

Lemma donation_wait_for_confirmation_record client txid timeout p polls :
  donation_wait_for_confirmation client txid timeout = (Ok (Some p), polls) ->
  exists k, polls = S k /\ Z.of_nat k < timeout
    /\ pending_transaction_info client txid k = Ok p
    /\ 0 < get (confirmed_round p) 0.
Proof.
  unfold donation_wait_for_confirmation.
  destruct (status_last_round client) as [last|e]; [|discriminate].
  intros H.
  destruct (donation_wait_loop_record _ _ _ _ _ _ _ _ _ eq_refl H)
    as (k & -> & _ & Hround & Hp & Hconf).
  exists k. rewrite Nat.sub_0_r in Hround. repeat split; [lia | exact Hp | exact Hconf].
Qed.

(** The timeout of the donation script: its message has no colon. *)
Example donation_timeout_text :
  donation_wait_for_confirmation silent_client "TXID" 10
  = (Raise (Exception "pending tx not found in timeout rounds, timeout value = 10"),
     10%nat).
Proof. reflexivity. Qed.

Lemma wait_for_confirmation_bound client txid timeout :
  Z.of_nat (snd (wait_for_confirmation client txid timeout)) <= Z.max 0 timeout.
Proof.
  unfold wait_for_confirmation.
  destruct (status_last_round client) as [last|e]; [|cbn; lia].
  pose proof (wait_loop_polls_bound client txid (last + 1) timeout _ (last + 1) 0 eq_refl).
  lia.
Qed.

Lemma wait_for_confirmation_confirmed client txid timeout last k p :
  status_last_round client = Ok last ->
  Z.of_nat k < timeout -> quiet client txid (last + 1) 0 k ->
  pending_transaction_info client txid k = Ok p ->
  0 < get (confirmed_round p) 0 ->
  wait_for_confirmation client txid timeout = (Ok (Some p), S k).
Proof.
  intros Hs Hk Hq Hp Hconf. unfold wait_for_confirmation. rewrite Hs.
  rewrite (wait_loop_quiet _ _ _ _ k _ _ Hq) by lia.
  rewrite wait_loop_unfold.
  assert (Hlt : (last + 1 + Z.of_nat k <? last + 1 + timeout) = true)
    by (apply Z.ltb_lt; lia).
  rewrite Hlt. cbn [Nat.add]. rewrite Hp.
  apply Z.ltb_lt in Hconf. rewrite Hconf. reflexivity.
Qed.

Lemma wait_for_confirmation_timeout client txid timeout last :
  status_last_round client = Ok last -> 0 <= timeout ->
  quiet client txid (last + 1) 0 (Z.to_nat timeout) ->
  wait_for_confirmation client txid timeout
  = (Raise (Exception (timeout_message timeout)), Z.to_nat timeout).
Proof.
  intros Hs Hpos Hq. unfold wait_for_confirmation. rewrite Hs.
  rewrite (wait_loop_quiet _ _ _ _ _ _ _ Hq) by lia.
  rewrite wait_loop_unfold.
  assert (Hge : (last + 1 + Z.of_nat (Z.to_nat timeout) <? last + 1 + timeout) = false)
    by (apply Z.ltb_ge; lia).
  rewrite Hge. reflexivity.
Qed.

(** X13: when the node accepts the transaction but fails to answer the
    first poll, [call_app] ends normally ("Application called") after that
    single poll: the caller is not told that nothing was confirmed. *)
Theorem call_app_succeeds_when_poll_fails client tx_id last e :
  suggested_params client = Ok tt ->
  send_transaction client tx_id = Ok tx_id ->
  status_last_round (algod client) = Ok last ->
  pending_transaction_info (algod client) tx_id 0 = Raise e ->
  call_app client tx_id = (Ok tt, 1%nat).
Proof.
  intros Hparams Hsend Hs Hp. unfold call_app. rewrite Hparams, Hsend.
  rewrite (wait_for_confirmation_swallows _ _ 5 _ _ Hs ltac:(lia) Hp). reflexivity.
Qed.

Lemma call_app_succeeds_when_poll_fails_witness :
  pending_transaction_info (algod (accepting_node failing_client)) "TXID" 0
    = Raise (ClientError "Network request error")
  /\ call_app (accepting_node failing_client) "TXID" = (Ok tt, 1%nat).
Proof.
  split; [reflexivity|].
  apply (call_app_succeeds_when_poll_fails (accepting_node failing_client) "TXID" 10
           (ClientError "Network request error")); reflexivity.
Defined.

(** X14: when a poll of the wait reports the creation confirmed,
    [create_app] polls once more and answers with the "application-index"
    of that further record, not of the one the wait returned; it raises
    KeyError when that record has no such key, and whatever the further
    poll raises. *)
Theorem create_app_reads_following_poll client tx_id last k p :
  suggested_params client = Ok tt ->
  send_transaction client tx_id = Ok tx_id ->
  status_last_round (algod client) = Ok last ->
  Z.of_nat k < 5 -> quiet (algod client) tx_id (last + 1) 0 k ->
  pending_transaction_info (algod client) tx_id k = Ok p ->
  0 < get (confirmed_round p) 0 ->
  create_app client tx_id
  = (match pending_transaction_info (algod client) tx_id (S k) with
     | Ok transaction_response =>
         getitem "application-index" (application_index transaction_response)
     | Raise e => Raise e
     end, S (S k)).
Proof.
  intros Hparams Hsend Hs Hk Hq Hp Hconf. unfold create_app. rewrite Hparams, Hsend.
  rewrite (wait_for_confirmation_confirmed _ _ 5 _ _ _ Hs Hk Hq Hp Hconf).
  destruct (pending_transaction_info (algod client) tx_id (S k)); reflexivity.
Qed.

Lemma create_app_reads_following_poll_witness :
  pending_transaction_info (algod (accepting_node creating_client)) "TXID" 1
    = Ok {| confirmed_round := Some 12; pool_error := Some "";
            application_index := Some 42 |}
  /\ create_app (accepting_node creating_client) "TXID" = (Ok 42, 3%nat).
Proof.
  split; [reflexivity|].
  rewrite (create_app_reads_following_poll (accepting_node creating_client) "TXID" 10 1
             {| confirmed_round := Some 12; pool_error := Some "";
                application_index := Some 42 |});
    [reflexivity | reflexivity | reflexivity | reflexivity | lia | | reflexivity | cbn; lia].
  apply quiet_first_poll; reflexivity.
Defined.

(** X15: the workflows poll a bounded number of times: [create_app] at most
    6 times, [call_app] and [payment_transaction] at most 5,
    [lsig_payment_txn] at most 10. *)
Theorem workflow_poll_bounds decodebytes logic_sign escrowProg client tx_id :
  (snd (create_app client tx_id) <= 6)%nat
  /\ (snd (call_app client tx_id) <= 5)%nat
  /\ (snd (payment_transaction client tx_id) <= 5)%nat
  /\ (snd (lsig_payment_txn decodebytes logic_sign escrowProg client) <= 10)%nat.
Proof.
  unfold create_app, call_app, payment_transaction, lsig_payment_txn.
  destruct (suggested_params client); [|cbn; lia].
  repeat split.
  - destruct (send_transaction client tx_id); [|cbn; lia].
    pose proof (wait_for_confirmation_bound (algod client) tx_id 5) as Hb.
    destruct (wait_for_confirmation (algod client) tx_id 5) as [[r|e] polls]; cbn in *; [|lia].
    destruct (pending_transaction_info (algod client) tx_id polls); cbn; lia.
  - destruct (send_transaction client tx_id); [|cbn; lia].
    pose proof (wait_for_confirmation_bound (algod client) tx_id 5) as Hb.
    destruct (wait_for_confirmation (algod client) tx_id 5) as [[r|e] polls]; cbn in *; lia.
  - destruct (send_transaction client tx_id) as [txid|e]; [|cbn; lia].
    pose proof (donation_wait_for_confirmation_bound (algod client) txid 5) as Hb. lia.
  - destruct (decodebytes escrowProg) as [program|e]; [|cbn; lia].
    destruct (logic_sign program) as [stxn|e]; [|cbn; lia].
    destruct (send_transaction client stxn) as [txid|e]; [|cbn; lia].
    pose proof (donation_wait_for_confirmation_bound (algod client) txid 10) as Hb. lia.
Qed.

(** X16: when the node accepts the transaction and all five polls find it
    pending, [create_app] and [call_app] raise the timeout exception for 5
    rounds after those five polls; [create_app] does not go on to read the
    application index. *)
Theorem workflows_time_out client tx_id last :
  suggested_params client = Ok tt ->
  send_transaction client tx_id = Ok tx_id ->
  status_last_round (algod client) = Ok last ->
  quiet (algod client) tx_id (last + 1) 0 5 ->
  create_app client tx_id = (Raise (Exception (timeout_message 5)), 5%nat)
  /\ call_app client tx_id = (Raise (Exception (timeout_message 5)), 5%nat).
Proof.
  intros Hparams Hsend Hs Hq. unfold create_app, call_app. rewrite Hparams, Hsend.
  rewrite (wait_for_confirmation_timeout _ _ 5 _ Hs ltac:(lia) Hq). split; reflexivity.
Qed.

Lemma workflows_time_out_witness :
  quiet (algod (accepting_node silent_client)) "TXID" (10 + 1) 0 5
  /\ create_app (accepting_node silent_client) "TXID"
     = (Raise (Exception "pending tx not found in timeout rounds, timeout value = : 5"),
        5%nat)
  /\ call_app (accepting_node silent_client) "TXID"
     = (Raise (Exception "pending tx not found in timeout rounds, timeout value = : 5"),
        5%nat).
Proof.
  assert (Hq : quiet (algod (accepting_node silent_client)) "TXID" (10 + 1) 0 5).
  { intros i Hi. split; [|reflexivity].
    exists pending_record. split; [reflexivity|]. split; [cbn; lia | reflexivity]. }
  split; [exact Hq|].
  apply (workflows_time_out (accepting_node silent_client) "TXID" 10); try reflexivity.
  exact Hq.
Defined.

(** X17: a record returned by [payment_transaction] or [lsig_payment_txn]
    is the answer the node gave to the last poll made, for the identifier
    that [send_transaction] answered, and reports a confirmed round above
    0; that poll is one of the first 5, respectively 10. *)
Theorem payments_return_confirmed_records decodebytes logic_sign escrowProg
    client signed p polls :
  (payment_transaction client signed = (Ok (Some p), polls) ->
   exists txid k,
     send_transaction client signed = Ok txid
     /\ polls = S k /\ Z.of_nat k < 5
     /\ pending_transaction_info (algod client) txid k = Ok p
     /\ 0 < get (confirmed_round p) 0)
  /\ (lsig_payment_txn decodebytes logic_sign escrowProg client = (Ok (Some p), polls) ->
      exists program stxn tx_id k,
        decodebytes escrowProg = Ok program /\ logic_sign program = Ok stxn
        /\ send_transaction client stxn = Ok tx_id
        /\ polls = S k /\ Z.of_nat k < 10
        /\ pending_transaction_info (algod client) tx_id k = Ok p
        /\ 0 < get (confirmed_round p) 0).
Proof.
  unfold payment_transaction, lsig_payment_txn.
  destruct (suggested_params client); [|split; discriminate].
  split.
  - destruct (send_transaction client signed) as [txid|e]; [|discriminate].
    intros H.
    destruct (donation_wait_for_confirmation_record _ _ _ _ _ H) as (k & Hk).
    exists txid, k. split; [reflexivity | exact Hk].
  - destruct (decodebytes escrowProg) as [program|e] eqn:Hprogram; [|discriminate].
    destruct (logic_sign program) as [stxn|e] eqn:Hstxn; [|discriminate].
    destruct (send_transaction client stxn) as [tx_id|e] eqn:Hsend; [|discriminate].
    intros H.
    destruct (donation_wait_for_confirmation_record _ _ _ _ _ H) as (k & Hk).
    exists program, stxn, tx_id, k.
    split; [reflexivity|]. split; [exact Hstxn|]. split; [exact Hsend|]. exact Hk.
Qed.

Lemma payments_return_confirmed_records_witness :
  payment_transaction (accepting_node confirming_client) "TXID"
    = (Ok (Some (confirmed_record 13)), 3%nat)
  /\ exists txid k,
       send_transaction (accepting_node confirming_client) "TXID" = Ok txid
       /\ 3%nat = S k /\ Z.of_nat k < 5
       /\ pending_transaction_info (algod (accepting_node confirming_client)) txid k
          = Ok (confirmed_record 13)
       /\ 0 < get (confirmed_round (confirmed_record 13)) 0.
Proof.
  split; [reflexivity|].
  destruct (payments_return_confirmed_records (fun s => Ok s) (fun s => Ok s) ""
              (accepting_node confirming_client) "TXID" (confirmed_record 13) 3)
    as (Hpayment & _).
  apply Hpayment. reflexivity.
Defined.

End WorkflowFacts.

(** ** The state formatters: keys, failures and defaults *)
Module StateReaderFacts.
Import Py StateFormat StateReader StateFormatFacts.
Local Open Scope py_scope.

Section Codecs.
Variable b64decode : string -> result string.
Variable utf8_decode : string -> result string.

Abbreviation format_item := (format_item b64decode utf8_decode).
Abbreviation format_state := (format_state b64decode utf8_decode).
Abbreviation formatted_key_of := (formatted_key_of b64decode utf8_decode).
Abbreviation global_state_item := (global_state_item b64decode).
Abbreviation get_app_global_state := (get_app_global_state b64decode).
Abbreviation read_created_apps := (read_created_apps b64decode utf8_decode).
Abbreviation read_global_state := (read_global_state b64decode utf8_decode).

Lemma format_item_bad_key formatted item e :
  formatted_key_of item = Raise e -> format_item formatted item = Raise e.
Proof.
  unfold StateFormat.formatted_key_of, StateFormat.format_item.
  destruct (b64decode (key item)) as [kb|e']; cbn [bind].
  - intros ->. reflexivity.
  - intros H. injection H as ->. reflexivity.
Qed.

Lemma for_each_format_item_keys k : forall items formatted m,
  for_each format_item items formatted = Ok m ->
  is_Some (m !! k) <->
  is_Some (formatted !! k) \/ exists item, In item items /\ formatted_key_of item = Ok k.
Proof.
  induction items as [|item items IH]; intros formatted m H.
  - injection H as <-. split; [tauto | intros [H|(item & [] & _)]; exact H].
  - cbn [for_each] in H.
    destruct (format_item formatted item) as [formatted'|e] eqn:Hitem;
      cbn [bind] in H; [|discriminate].
    destruct (format_item_writes _ _ _ _ _ Hitem) as (k' & v & Hk' & ->).
    rewrite (IH _ _ H). split.
    + intros [Hin|(later & Hin & Hl)].
      * destruct (decide (k' = k)) as [<-|Hne].
        -- right. exists item. split; [left; reflexivity | exact Hk'].
        -- left. rewrite lookup_insert_ne in Hin by exact Hne. exact Hin.
      * right. exists later. split; [right; exact Hin | exact Hl].
    + intros [Hin|(it & [<-|Hin] & Hl)].
      * left. destruct (decide (k' = k)) as [<-|Hne].
        -- rewrite lookup_insert_eq. eauto.
        -- rewrite lookup_insert_ne by exact Hne. exact Hin.
      * left. rewrite Hk' in Hl. injection Hl as ->. rewrite lookup_insert_eq. eauto.
      * right. exists it. split; [exact Hin | exact Hl].
Qed.

(** X18: the mapping [format_state] returns has exactly the decoded keys of
    the entries as its keys. *)
Theorem format_state_keys state m k :
  format_state state = Ok m ->
  is_Some (m !! k) <-> exists item, In item state /\ formatted_key_of item = Ok k.
Proof.
  intros H. unfold StateFormat.format_state in H.
  rewrite (for_each_format_item_keys k _ _ _ H), lookup_empty.
  split; [intros [[v Hv]|Hex]; [discriminate | exact Hex] | intros Hex; right; exact Hex].
Qed.

(** X19: [format_state] fails as a whole at the first entry whose key does
    not decode, with the exception of the decoder, whatever entries
    follow: no partial mapping is returned. *)
Theorem format_state_stops_at_bad_key pre item post formatted e :
  format_state pre = Ok formatted ->
  formatted_key_of item = Raise e ->
  format_state (pre ++ item :: post) = Raise e.
Proof.
  intros Hpre Hkey. unfold StateFormat.format_state in *.
  rewrite for_each_app, Hpre. cbn [bind for_each].
  rewrite (format_item_bad_key _ _ _ Hkey). reflexivity.
Qed.

(** X20: where [format_state] reads a field that the entry does not have it
    raises KeyError: 'bytes' for an entry of discriminant 1, 'uint' for any
    other discriminant. *)
Theorem format_state_missing_field pre item post formatted k :
  format_state pre = Ok formatted ->
  formatted_key_of item = Ok k ->
  (type (value item) = 1 -> bytes (value item) = None ->
   format_state (pre ++ item :: post) = Raise (KeyError "bytes"))
  /\ (type (value item) <> 1 -> uint (value item) = None ->
      format_state (pre ++ item :: post) = Raise (KeyError "uint")).
Proof.
  intros Hpre Hkey. unfold StateFormat.format_state in *.
  rewrite for_each_app, Hpre. cbn [bind for_each].
  rewrite (format_item_start _ _ _ _ _ Hkey). split.
  - intros -> ->. cbn [Z.eqb Pos.eqb getitem bind].
    destruct (String.eqb k "voted"); reflexivity.
  - intros Hty ->. apply Z.eqb_neq in Hty. rewrite Hty. reflexivity.
Qed.

(** X21: [get_app_global_state] does not fail on a missing field: an entry
    of discriminant 2 without 'uint' is stored as 0, an entry of
    discriminant 1 without 'bytes' as the decoding of the empty string. *)
Theorem get_app_global_state_defaults pre pair state k :
  for_each global_state_item pre ∅ = Ok state ->
  b64decode (key pair) = Ok k ->
  (type (value pair) = 2 -> uint (value pair) = None ->
   get_app_global_state (pre ++ [pair]) = Ok (<[k := PyInt 0]> state))
  /\ (type (value pair) = 1 -> bytes (value pair) = None ->
      get_app_global_state (pre ++ [pair])
      = let? b := b64decode "" in Ok (<[k := PyBytes b]> state)).
Proof.
  intros Hpre Hkey. unfold StateFormat.get_app_global_state.
  rewrite for_each_app, Hpre. cbn [bind for_each].
  unfold StateFormat.global_state_item. rewrite Hkey. cbn [bind]. split.
  - intros -> ->. reflexivity.
  - intros -> ->. cbn [Z.eqb Pos.eqb get default from_option].
    destruct (b64decode ""); reflexivity.
Qed.

(** X22: [get_app_global_state] raises Exception('Unexpected state type: t')
    at the first entry whose discriminant [t] is neither 1 nor 2, whatever
    entries follow. *)
Theorem get_app_global_state_rejects_unknown_type pre pair post state k :
  for_each global_state_item pre ∅ = Ok state ->
  b64decode (key pair) = Ok k ->
  type (value pair) <> 1 -> type (value pair) <> 2 ->
  get_app_global_state (pre ++ pair :: post)
  = Raise (Exception ("Unexpected state type: " +:+ format_int (type (value pair)))).
Proof.
  intros Hpre Hk H1 H2. unfold StateFormat.get_app_global_state.
  rewrite for_each_app, Hpre. cbn [bind for_each].
  rewrite (global_state_item_unknown_type _ _ _ _ Hk H1 H2). reflexivity.
Qed.

Lemma global_state_item_writes state pair state' :
  global_state_item state pair = Ok state' ->
  exists k v, b64decode (key pair) = Ok k /\ state' = <[k := v]> state.
Proof.
  unfold StateFormat.global_state_item.
  destruct (b64decode (key pair)) as [k|e]; cbn [bind]; [|discriminate].
  match goal with |- bind ?r _ = _ -> _ => destruct r as [v|e] end;
    cbn [bind]; [|discriminate].
  intros H. injection H as <-. eauto.
Qed.

Lemma for_each_global_state_item_frame k : forall post state m,
  (forall later, In later post -> b64decode (key later) <> Ok k) ->
  for_each global_state_item post state = Ok m ->
  m !! k = state !! k.
Proof.
  induction post as [|pair post IH]; intros state m Hlater H.
  - injection H as <-. reflexivity.
  - cbn [for_each] in H.
    destruct (global_state_item state pair) as [state'|e] eqn:Hitem;
      cbn [bind] in H; [|discriminate].
    destruct (global_state_item_writes _ _ _ Hitem) as (k' & v & Hk' & ->).
    rewrite (IH _ _ (fun later Hin => Hlater later (or_intror Hin)) H).
    apply lookup_insert_ne. intros ->. exact (Hlater pair (or_introl eq_refl) Hk').
Qed.

(** X23: in the mapping of [get_app_global_state] an entry of discriminant
    1 appears base64-decoded, as bytes, and an entry of discriminant 2 as
    its integer, under the decoded key, unless a later entry has the same
    key. *)
Theorem get_app_global_state_entry pre pair post k m :
  b64decode (key pair) = Ok k ->
  (forall later, In later post -> b64decode (key later) <> Ok k) ->
  get_app_global_state (pre ++ pair :: post) = Ok m ->
  (type (value pair) = 1 ->
   exists b, b64decode (get (bytes (value pair)) "") = Ok b /\ m !! k = Some (PyBytes b))
  /\ (type (value pair) = 2 -> m !! k = Some (PyInt (get (uint (value pair)) 0))).
Proof.
  intros Hk Hlater Hm. unfold StateFormat.get_app_global_state in Hm.
  rewrite for_each_app in Hm.
  destruct (for_each global_state_item pre ∅) as [state|e]; cbn [bind for_each] in Hm;
    [|discriminate].
  unfold StateFormat.global_state_item in Hm at 1. rewrite Hk in Hm. cbn [bind] in Hm.
  split.
  - intros Hty. rewrite Hty in Hm. cbn [Z.eqb Pos.eqb] in Hm.
    destruct (b64decode (get (bytes (value pair)) "")) as [b|e]; cbn [bind] in Hm;
      [|discriminate].
    exists b. split; [reflexivity|].
    rewrite (for_each_global_state_item_frame k _ _ _ Hlater Hm). apply lookup_insert_eq.
  - intros Hty. rewrite Hty in Hm. cbn [Z.eqb Pos.eqb bind] in Hm.
    rewrite (for_each_global_state_item_frame k _ _ _ Hlater Hm). apply lookup_insert_eq.
Qed.

(** X24: in the mapping of [format_state] an entry whose discriminant is
    not 1 appears as its 'uint' field under the decoded key, unless a later
    entry has the same key. *)
Theorem format_state_uint_entry pre item post k n m :
  type (value item) <> 1 -> uint (value item) = Some n ->
  formatted_key_of item = Ok k ->
  (forall later, In later post -> formatted_key_of later <> Ok k) ->
  format_state (pre ++ item :: post) = Ok m ->
  m !! k = Some (PyInt n).
Proof.
  intros Hty Hn Hk Hlater Hm. unfold StateFormat.format_state in Hm.
  rewrite for_each_app in Hm.
  destruct (for_each format_item pre ∅) as [formatted|e]; cbn [bind for_each] in Hm;
    [|discriminate].
  rewrite (format_item_not_bytes _ _ _ _ _ _ Hk Hty Hn) in Hm. cbn [bind] in Hm.
  rewrite (for_each_format_item_frame _ _ k _ _ _ Hlater Hm). apply lookup_insert_eq.
Qed.

Lemma read_created_apps_skip app_id : forall pre rest,
  (forall app, In app pre -> created_id app <> app_id) ->
  read_created_apps (pre ++ rest) app_id = read_created_apps rest app_id.
Proof.
  induction pre as [|first pre IH]; intros rest Hpre; [reflexivity|].
  cbn [List.app StateReader.read_created_apps].
  assert (Hne : (created_id first =? app_id) = false)
    by (apply Z.eqb_neq, Hpre; left; reflexivity).
  rewrite Hne. apply IH. intros a Ha. apply Hpre. right. exact Ha.
Qed.

(** X25: [read_global_state] answers with the formatted state of the first
    created application that has the id asked for, raising KeyError
    ('global-state') when that application has no such key; when no
    created application has the id it answers with the empty mapping. *)
Theorem read_global_state_first_match apps_created app_id :
  ((forall app, In app apps_created -> created_id app <> app_id) ->
   read_global_state (Ok (Some apps_created)) app_id = Ok ∅)
  /\ (forall pre app post,
        apps_created = (pre ++ app :: post)%list ->
        (forall earlier, In earlier pre -> created_id earlier <> app_id) ->
        created_id app = app_id ->
        read_global_state (Ok (Some apps_created)) app_id
        = match created_global_state app with
          | Some state => format_state state
          | None => Raise (KeyError "global-state")
          end).
Proof.
  unfold StateReader.read_global_state. cbn [bind getitem]. split.
  - intros Hnone.
    rewrite <- (app_nil_r apps_created).
    rewrite (read_created_apps_skip app_id apps_created [] Hnone). reflexivity.
  - intros pre app post -> Hpre Hid.
    rewrite (read_created_apps_skip app_id pre _ Hpre).
    cbn [StateReader.read_created_apps]. apply Z.eqb_eq in Hid. rewrite Hid.
    destruct (created_global_state app); reflexivity.
Qed.

End Codecs.

Abbreviation b64 := base64_b64decode.
Abbreviation utf8 := bytes_decode_utf8.

Lemma format_state_keys_witness :
  exists m, format_state b64 utf8 sample_state = Ok m /\ is_Some (m !! "voted").
Proof.
  eexists. split; [vm_compute; reflexivity|].
  apply (format_state_keys b64 utf8 sample_state _ "voted"); [vm_compute; reflexivity|].
  exists voted_entry. split; [cbn; tauto | reflexivity].
Defined.

Lemma format_state_stops_at_bad_key_witness :
  formatted_key_of b64 utf8 garbled_entry = Raise BinasciiError
  /\ format_state b64 utf8 ([count_entry] ++ garbled_entry :: [voted_entry])
     = Raise BinasciiError.
Proof.
  split; [reflexivity|].
  apply (format_state_stops_at_bad_key b64 utf8 [count_entry] garbled_entry [voted_entry]
           (<["Count" := PyInt 3]> ∅)); [vm_compute; reflexivity | reflexivity].
Defined.

Lemma format_state_missing_field_witness :
  formatted_key_of b64 utf8 (bare_entry 1) = Ok "Count"
  /\ format_state b64 utf8 ([] ++ bare_entry 1 :: [count_entry]) = Raise (KeyError "bytes")
  /\ format_state b64 utf8 ([] ++ bare_entry 2 :: [count_entry]) = Raise (KeyError "uint").
Proof.
  split; [reflexivity|]. split.
  - apply (format_state_missing_field b64 utf8 [] (bare_entry 1) [count_entry] ∅ "Count");
      reflexivity.
  - apply (format_state_missing_field b64 utf8 [] (bare_entry 2) [count_entry] ∅ "Count");
      [reflexivity | reflexivity | discriminate | reflexivity].
Defined.

Lemma get_app_global_state_defaults_witness :
  b64 (key (bare_entry 2)) = Ok "Count"
  /\ get_app_global_state b64 ([] ++ [bare_entry 2]) = Ok (<["Count" := PyInt 0]> ∅)
  /\ get_app_global_state b64 ([] ++ [bare_entry 1]) = Ok (<["Count" := PyBytes ""]> ∅).
Proof.
  split; [reflexivity|]. split.
  - apply (get_app_global_state_defaults b64 [] (bare_entry 2) ∅ "Count"); reflexivity.
  - destruct (get_app_global_state_defaults b64 [] (bare_entry 1) ∅ "Count" eq_refl eq_refl)
      as (_ & Hbytes).
    rewrite (Hbytes eq_refl eq_refl). reflexivity.
Defined.

Lemma get_app_global_state_rejects_unknown_type_witness :
  get_app_global_state b64 unknown_type_state
  = Raise (Exception "Unexpected state type: 3").
Proof.
  exact (get_app_global_state_rejects_unknown_type b64 []
           {| key := "Q291bnQ=";
              value := {| type := 3; bytes := Some ""; uint := Some 7 |} |}
           [] ∅ "Count" eq_refl eq_refl
           ltac:(discriminate) ltac:(discriminate)).
Defined.

Lemma get_app_global_state_entry_witness :
  exists m, get_app_global_state b64 sample_state = Ok m
            /\ m !! "voted" = Some (PyBytes "yes")
            /\ m !! "Count" = Some (PyInt 3).
Proof.
  eexists. split; [vm_compute; reflexivity|]. split.
  - destruct (get_app_global_state_entry b64 [count_entry] voted_entry [creator_entry]
                "voted" _ eq_refl
                ltac:(intros later [<-|[]]; discriminate)
                ltac:(vm_compute; reflexivity)) as (Hbytes & _).
    destruct (Hbytes eq_refl) as (b & Hb & Hlookup).
    injection Hb as <-. exact Hlookup.
  - destruct (get_app_global_state_entry b64 [] count_entry [voted_entry; creator_entry]
                "Count" _ eq_refl
                ltac:(intros later [<-|[<-|[]]]; discriminate)
                ltac:(vm_compute; reflexivity)) as (_ & Huint).
    exact (Huint eq_refl).
Defined.

Lemma format_state_uint_entry_witness :
  exists m, format_state b64 utf8 sample_state = Ok m /\ m !! "Count" = Some (PyInt 3).
Proof.
  eexists. split; [vm_compute; reflexivity|].
  apply (format_state_uint_entry b64 utf8 [] count_entry [voted_entry; creator_entry]
           "Count" 3 _);
    [discriminate | reflexivity | reflexivity
     | intros later [<-|[<-|[]]]; discriminate
     | vm_compute; reflexivity].
Defined.

Lemma read_global_state_first_match_witness :
  read_global_state b64 utf8 (Ok (Some creator_apps)) 9 = Ok ∅
  /\ read_global_state b64 utf8 (Ok (Some creator_apps)) 5 = Raise (KeyError "global-state").
Proof.
  destruct (read_global_state_first_match b64 utf8 creator_apps 9) as (Hnone & _).
  destruct (read_global_state_first_match b64 utf8 creator_apps 5) as (_ & Hfirst).
  split.
  - apply Hnone. intros app [<-|[<-|[]]]; discriminate.
  - rewrite (Hfirst [] _ _ eq_refl ltac:(intros earlier []) eq_refl). reflexivity.
Defined.

Example read_global_state_script :
  read_global_state base64_b64decode bytes_decode_utf8 (Ok (Some creator_apps)) 7
    = Ok {[ "Count" := PyInt 1 ]}
  /\ read_global_state base64_b64decode bytes_decode_utf8 (Ok (Some creator_apps)) 5
     = Raise (KeyError "global-state")
  /\ read_global_state base64_b64decode bytes_decode_utf8 (Ok (Some creator_apps)) 9
     = Ok ∅
  /\ read_global_state base64_b64decode bytes_decode_utf8 (Ok None) 7
     = Raise (KeyError "created-apps").
Proof. repeat split; vm_compute; reflexivity. Qed.

End StateReaderFacts.

(** ** The sandbox helpers *)
Module SandboxFacts.
Import Py StateFormat Sandbox.

Lemma split_shape sep s :
  match split sep s with
  | [] => False
  | part :: parts =>
      occurs sep part = false
      /\ match parts with
         | [] => s = part
         | _ :: _ => exists rest, s = part +:+ String sep rest /\ split sep rest = parts
         end
  end.
Proof.
  induction s as [|c rest IH]; [cbn; auto|].
  cbn [split]. destruct (Ascii.eqb c sep) eqn:Hc.
  - apply Ascii.eqb_eq in Hc. subst c. split; [reflexivity|].
    destruct (split sep rest) as [|part parts] eqn:Hsplit; [contradiction|].
    exists rest. split; [reflexivity | exact Hsplit].
  - destruct (split sep rest) as [|part parts]; [contradiction|].
    destruct IH as (Hpart & Hparts). split.
    + cbn [occurs]. rewrite Hc, Hpart. reflexivity.
    + destruct parts as [|next parts].
      * rewrite Hparts. reflexivity.
      * destruct Hparts as (r & -> & Hr). exists r. split; [reflexivity | exact Hr].
Qed.

Lemma split_without sep s : occurs sep s = false -> split sep s = [s].
Proof.
  induction s as [|c rest IH]; [reflexivity|].
  cbn [split occurs]. destruct (Ascii.eqb c sep); [discriminate|]. cbn [orb].
  intros Hrest. rewrite (IH Hrest). reflexivity.
Qed.

Lemma split_at_first sep pre rest :
  occurs sep pre = false ->
  split sep (pre +:+ String sep rest) = pre :: split sep rest.
Proof.
  induction pre as [|c pre IH].
  - intros _. change (split sep (String sep rest) = "" :: split sep rest).
    cbn [split]. rewrite Ascii.eqb_refl. reflexivity.
  - cbn [occurs].
    change (String c pre +:+ String sep rest) with (String c (pre +:+ String sep rest)).
    cbn [split]. destruct (Ascii.eqb c sep); [discriminate|]. cbn [orb].
    intros Hpre. rewrite (IH Hpre). reflexivity.
Qed.

Lemma append_empty_r s : s +:+ "" = s.
Proof.
  induction s as [|c s IH]; [reflexivity|].
  change (String c s +:+ "") with (String c (s +:+ "")). rewrite IH. reflexivity.
Qed.

Section Cli.
Variable utf8_decode : string -> result string.

Abbreviation cli_passphrase_for_account := (cli_passphrase_for_account utf8_decode).

(** X26: [_cli_passphrase_for_account] returns [p] exactly when the command
    wrote nothing to stderr and [p] is the non-empty text between the first
    double quote of its output and the next one (or the end of the
    output). *)
Theorem cli_passphrase_is_first_quoted process address p :
  cli_passphrase_for_account process address = inr p <->
  stderr process = ""
  /\ exists output pre post,
       utf8_decode (stdout process) = Ok output
       /\ output = pre +:+ String quote (p +:+ post)
       /\ occurs quote pre = false /\ occurs quote p = false /\ p <> ""
       /\ (post = "" \/ exists rest, post = String quote rest).
Proof.
  unfold Sandbox.cli_passphrase_for_account, truthy. split.
  - destruct (String.eqb_spec (stderr process) "") as [Herr|Herr]; cbn [negb].
    2:{ destruct (utf8_decode (stderr process)); discriminate. }
    destruct (utf8_decode (stdout process)) as [output|e]; [|discriminate].
    cbn zeta. pose proof (split_shape quote output) as Hshape.
    destruct (split quote output) as [|pre parts]; [contradiction|].
    destruct Hshape as (Hpre & Hparts).
    destruct parts as [|first parts]; cbn [List.length Nat.ltb Nat.leb nth].
    { discriminate. }
    destruct Hparts as (rest & Houtput & Hrest).
    destruct (String.eqb_spec first "") as [Hempty|Hfull]; [discriminate|].
    intros H. injection H as <-.
    pose proof (split_shape quote rest) as Hshape. rewrite Hrest in Hshape.
    destruct Hshape as (Hfirst & Hmore).
    split; [exact Herr|].
    destruct parts as [|next parts].
    + exists output, pre, "". subst rest.
      rewrite append_empty_r.
      repeat split; try assumption. left. reflexivity.
    + destruct Hmore as (r & -> & _).
      exists output, pre, (String quote r). repeat split; try assumption.
      right. exists r. reflexivity.
  - intros (Herr & output & pre & post & Hout & -> & Hpre & Hp & Hne & Hpost).
    rewrite Herr. cbn [String.eqb negb]. rewrite Hout. cbn zeta.
    rewrite (split_at_first _ _ _ Hpre).
    assert (Hsplit : exists parts, split quote (p +:+ post) = p :: parts).
    { destruct Hpost as [->|(rest & ->)].
      - exists []. rewrite append_empty_r. apply split_without, Hp.
      - exists (split quote rest). apply split_at_first, Hp. }
    destruct Hsplit as (parts & ->). cbn [List.length Nat.ltb Nat.leb nth].
    apply String.eqb_neq in Hne. rewrite Hne. reflexivity.
Qed.

(** X27: an output without any double quote makes
    [_cli_passphrase_for_account] raise ValueError (with the address and
    the output); anything on stderr makes it raise RuntimeError with that
    text, even when the output holds a passphrase. *)
Theorem cli_passphrase_errors process address :
  (forall output,
     stderr process = "" -> utf8_decode (stdout process) = Ok output ->
     occurs quote output = false ->
     cli_passphrase_for_account process address = inl (ValueError address output))
  /\ (forall msg,
        stderr process <> "" -> utf8_decode (stderr process) = Ok msg ->
        cli_passphrase_for_account process address = inl (RuntimeError msg)).
Proof.
  unfold Sandbox.cli_passphrase_for_account, truthy. split.
  - intros output -> -> Hnone. cbn [String.eqb negb]. cbn zeta.
    rewrite (split_without _ _ Hnone). reflexivity.
  - intros msg Herr ->. apply String.eqb_neq in Herr. rewrite Herr. reflexivity.
Qed.

End Cli.

Lemma cli_passphrase_is_first_quoted_witness :
  cli_passphrase_for_account bytes_decode_utf8
    {| stdout := exported_output; stderr := "" |} "ABC" = inr "abandon ability able".
Proof.
  apply (cli_passphrase_is_first_quoted bytes_decode_utf8
           {| stdout := exported_output; stderr := "" |} "ABC" "abandon ability able").
  split; [reflexivity|].
  exists exported_output, "Exported key for account ABC: ", (String quote "").
  repeat split; try reflexivity; [discriminate|].
  right. exists "". reflexivity.
Defined.

Lemma find_first {A} (f : A -> bool) : forall l x,
  find f l = Some x ->
  exists pre post, l = (pre ++ x :: post)%list /\ f x = true
    /\ forall y, In y pre -> f y = false.
Proof.
  induction l as [|a l IH]; intros x H; [discriminate|].
  cbn in H. destruct (f a) eqn:Ha.
  - injection H as <-. exists [], l. repeat split; [exact Ha | intros y []].
  - destruct (IH x H) as (pre & post & -> & Hx & Hpre).
    exists (a :: pre), post. repeat split; [exact Hx|].
    intros y [<-|Hy]; [exact Ha | exact (Hpre y Hy)].
Qed.

(** X28: the address [_initial_funds_address] returns is that of the first
    listed account that was created at round 0 and is Offline; without the
    "accounts" key it returns None. *)
Theorem initial_funds_address_is_first_initial accounts a :
  initial_funds_address accounts = Some a ->
  exists listed pre account post,
    accounts = Some listed
    /\ listed = (pre ++ account :: post)%list
    /\ address account = Some a
    /\ created_at_round account = Some 0 /\ status account = Some "Offline"
    /\ forall earlier, In earlier pre -> is_initial earlier = false.
Proof.
  unfold initial_funds_address. destruct accounts as [listed|]; cbn [get default from_option id].
  2:{ cbn. discriminate. }
  destruct (find is_initial listed) as [account|] eqn:Hfind; [|discriminate].
  intros Ha. destruct (find_first _ _ _ Hfind) as (pre & post & -> & Hinit & Hpre).
  exists (pre ++ account :: post)%list, pre, account, post.
  unfold is_initial in Hinit. apply andb_true_iff in Hinit as (Hround & Hstatus).
  destruct (created_at_round account) as [r|]; [|discriminate].
  destruct (status account) as [st|]; [|discriminate].
  apply Z.eqb_eq in Hround. apply String.eqb_eq in Hstatus. subst r st.
  repeat split; [exact Ha | exact Hpre].
Qed.

Lemma initial_funds_address_is_first_initial_witness :
  initial_funds_address (Some listed_accounts) = Some "FUNDER"
  /\ exists account,
       address account = Some "FUNDER"
       /\ created_at_round account = Some 0 /\ status account = Some "Offline".
Proof.
  split; [reflexivity|].
  destruct (initial_funds_address_is_first_initial (Some listed_accounts) "FUNDER" eq_refl)
    as (listed & pre & account & post & _ & _ & Ha & Hr & Hs & _).
  exists account. repeat split; assumption.
Defined.

Lemma cli_passphrase_errors_witness :
  cli_passphrase_for_account bytes_decode_utf8
    {| stdout := "no key"; stderr := "" |} "ABC" = inl (ValueError "ABC" "no key")
  /\ cli_passphrase_for_account bytes_decode_utf8
       {| stdout := exported_output; stderr := "goal: not found" |} "ABC"
     = inl (RuntimeError "goal: not found").
Proof.
  destruct (cli_passphrase_errors bytes_decode_utf8
              {| stdout := "no key"; stderr := "" |} "ABC") as (Hvalue & _).
  destruct (cli_passphrase_errors bytes_decode_utf8
              {| stdout := exported_output; stderr := "goal: not found" |} "ABC")
    as (_ & Hruntime).
  split.
  - apply Hvalue; reflexivity.
  - apply Hruntime; [discriminate | reflexivity].
Defined.

End SandboxFacts.
